(** * ECI Orders API: the order-placement saga and the cancel operation

    A shallow embedding of [place_order] and [cancel_order] of
    Scalable_Services_Assignment_Orders_Services_PS4/enhanced_order_service.py.

    - Python [int] is [Z]; Python [float] is the kernel's binary64 [float],
      so the arithmetic on amounts rounds exactly as it does in Python.
    - The MySQL tables are lists of rows. A connection carries the durable
      tables (what any other reader sees) and its own uncommitted view.
    - Every [requests.post] is recorded, in order, in a log of calls; the
      collaborators' answers, the clock, [uuid4] and the failures of the
      store are read from an environment. *)

From Stdlib Require Import ZArith List String Lia.
From Stdlib Require Import Permutation Sorted.
From Stdlib Require Import PrimFloat SpecFloat FloatOps.
From Stdlib Require Import DecimalString.
Import ListNotations.

(* A decimal literal denotes its nearest binary64 value, as it does in Python. *)
Set Warnings "-inexact-float".

Open Scope string_scope.
Open Scope Z_scope.

(** ** Python values *)

(** [str(n)] for an [int]. *)
Definition str (n : Z) : string := NilZero.string_of_int (Z.to_int n).

(** [float(n)] for an [int], without its range check: rounds to nearest, ties to even. *)
Definition to_float (n : Z) : float := SF2Prim (binary_normalize prec emax n 0 false).

(** The conversion Python performs on the [int] operand of [float * int]:
    an [int] too large for a binary64 raises OverflowError ([None]). *)
Definition float_of_int (n : Z) : option float :=
  if is_infinity (to_float n) then None else Some (to_float n).

(** An [Optional[str]] under [if s]: [None] and the empty string are false. *)
Definition nonempty (s : option string) : option string :=
  match s with
  | Some s => if (s =? "")%string then None else Some s
  | None => None
  end.

(** ** Models *)

Record OrderItem := {
  product_id : Z;
  sku : string;
  quantity : Z
}.

Record PlaceOrderRequest := {
  customer_id : Z;
  items : list OrderItem;
  idempotency_key : option string
}.

(** ** Configuration *)

Definition INVENTORY_SERVICE_URL := "http://inventoryservice:3000/v1".
Definition PAYMENT_SERVICE_URL := "http://payment_service:8002/v1".
Definition NOTIFICATION_SERVICE_URL := "http://notification_service:8080/v1".
Definition SHIPMENT_SERVICE_URL := "http://shipment_service:8001/v1".

Definition TAX_RATE : float := 0.05%float.
Definition SHIPPING_COST : float := 10.00%float.

(** ** The totals signature *)

(** The text [json.dumps(d)] of a flat dict of floats, kept as the sequence of
    its members in the order they are printed: the punctuation is fixed and
    every number is printed by [repr]. *)
Record JsonText := { members : list (string * float) }.

(** [hashlib.sha256(text.encode()).hexdigest()], kept symbolic: a digest is
    known by the text it was taken of. *)
Record Digest := { hashed : JsonText }.

Definition sha256_hexdigest (text : JsonText) : Digest := {| hashed := text |}.

Fixpoint insert_member (m : string * float) (ms : list (string * float))
  : list (string * float) :=
  match ms with
  | [] => [m]
  | m' :: rest =>
      if String.leb (fst m) (fst m') then m :: ms else m' :: insert_member m rest
  end.

(** [sort_keys=True]: the members ordered by key. *)
Definition sort_keys (d : list (string * float)) : list (string * float) :=
  fold_right insert_member [] d.

Definition json_dumps (d : list (string * float)) (sorted : bool) : JsonText :=
  {| members := if sorted then sort_keys d else d |}.

(** ** The store *)

(** A row of [Orders], with the columns [place_order] inserts. *)
Record OrderRow := {
  order_id : Z;
  order_customer_id : Z;
  order_status : string;
  payment_status : string;
  order_total : float;
  subtotal : float;
  tax_amount : float;
  shipping_amount : float;
  totals_signature : Digest;
  order_idempotency_key : option string;   (* NULL is [None] *)
  created_at : Z
}.

(** A row of [Order_Items]. *)
Record ItemRow := {
  item_order_id : Z;
  item_product_id : Z;
  item_sku : string;
  item_quantity : Z;
  item_unit_price : float
}.

Record Database := {
  Orders : list OrderRow;
  Order_Items : list ItemRow
}.

(** Modelled from the spec: [db_utils.get_connection] and the schema of
    [order_db] are not among the sources. The store is "durable" and an order
    is persisted with its lines "as one atomic write", which is what the
    [conn.commit()] and [conn.rollback()] of the source rely on: a connection
    is a transaction. [durable] is what is committed, and what any reader
    sees; [view] is what this connection reads and writes until it commits
    or rolls back. Values are stored as they are inserted. Reads succeed,
    except in [place_order_reading], where the reads of the idempotency
    check may raise. *)
Record Connection := {
  durable : Database;
  view : Database
}.

Definition get_connection (db : Database) : Connection :=
  {| durable := db; view := db |}.

Definition commit (conn : Connection) : Connection :=
  {| durable := view conn; view := view conn |}.

Definition rollback (conn : Connection) : Connection :=
  {| durable := durable conn; view := durable conn |}.

Definition insert_order (conn : Connection) (row : OrderRow) : Connection :=
  {| durable := durable conn;
     view := {| Orders := Orders (view conn) ++ [row];
                Order_Items := Order_Items (view conn) |} |}.

Definition insert_order_item (conn : Connection) (row : ItemRow) : Connection :=
  {| durable := durable conn;
     view := {| Orders := Orders (view conn);
                Order_Items := Order_Items (view conn) ++ [row] |} |}.

Definition has_key (key : string) (row : OrderRow) : bool :=
  match order_idempotency_key row with
  | Some k => (k =? key)%string
  | None => false
  end.

(** [SELECT * FROM Orders WHERE idempotency_key = %s], then [fetchone()]. *)
Definition select_order_by_key (conn : Connection) (key : string) : option OrderRow :=
  find (has_key key) (Orders (view conn)).

(** [SELECT * FROM Orders WHERE order_id = %s], then [fetchone()]. *)
Definition select_order_by_id (conn : Connection) (id : Z) : option OrderRow :=
  find (fun row => order_id row =? id) (Orders (view conn)).

(** [SELECT * FROM Order_Items WHERE order_id = %s], then [fetchall()]. *)
Definition select_items (conn : Connection) (id : Z) : list ItemRow :=
  filter (fun row => item_order_id row =? id) (Order_Items (view conn)).

(** [UPDATE Orders SET order_status = %s WHERE order_id = %s]. *)
Definition set_status (status : string) (id : Z) (row : OrderRow) : OrderRow :=
  if order_id row =? id then
    {| order_id := order_id row;
       order_customer_id := order_customer_id row;
       order_status := status;
       payment_status := payment_status row;
       order_total := order_total row;
       subtotal := subtotal row;
       tax_amount := tax_amount row;
       shipping_amount := shipping_amount row;
       totals_signature := totals_signature row;
       order_idempotency_key := order_idempotency_key row;
       created_at := created_at row |}
  else row.

Definition update_order_status (conn : Connection) (status : string) (id : Z)
  : Connection :=
  {| durable := durable conn;
     view := {| Orders := map (set_status status id) (Orders (view conn));
                Order_Items := Order_Items (view conn) |} |}.

(** ** Calls to the collaborators *)

(** An entry of [reservations]. *)
Record Reservation := {
  reservation_key : string;      (* "idempotency_key" *)
  reservation_order : string     (* "order_id" *)
}.

(** An entry of [order_items]. *)
Record OrderLine := {
  line_product_id : Z;
  line_sku : string;
  line_quantity : Z;
  unit_price : float
}.

(** The [json=] bodies the service posts. *)
Inductive Json :=
| reservation_data (product : Z) (qty : Z) (key : string) (order : string)
| release_data (reservation : Reservation)
| notification_data (type : string) (customer : Z) (order : Z) (message : string)
| shipment_data (order : Z) (customer : Z) (lines : list OrderLine).

(** One [requests.post(url, json=..., timeout=...)]. *)
Record Call := {
  url : string;
  json : Json;
  timeout : Z
}.

(** What a [requests.post] gives back: a response, of any status, or a
    [requests.RequestException] (connection failure, timeout). [json_error]
    is what [response.json()] does with the body of the response: [None] when
    the body decodes, and otherwise the [str(e)] of the
    [requests.JSONDecodeError] it raises, which is a [RequestException] too. *)
Inductive Reply :=
| Response (status_code : Z) (text : string) (json_error : option string)
| RequestException (message : string).

(** ** The environment of one request *)

Record Env := {
  uuid4 : string;                      (* str(uuid.uuid4()) *)
  time_ms : Z;                         (* int(time.time() * 1000) *)
  time_s : Z;                          (* int(time.time()) *)
  now : nat -> Z;                      (* the n-th reading of datetime.now() *)
  respond : nat -> Call -> Reply;      (* the answer to the n-th post of the request *)
  store_error : nat -> option string   (* str(e) when the n-th write of the request raises *)
}.

(** A post appends the call to the log and reads the collaborator's answer. *)
Definition post (env : Env) (log : list Call) (call : Call) : Reply * list Call :=
  (respond env (List.length log) call, (log ++ [call])%list).

Definition reserve_call (data : Json) : Call :=
  {| url := INVENTORY_SERVICE_URL ++ "/inventory/reserve"; json := data; timeout := 10 |}.

Definition release_call (r : Reservation) : Call :=
  {| url := INVENTORY_SERVICE_URL ++ "/inventory/release"; json := release_data r; timeout := 5 |}.

Definition notification_call (data : Json) : Call :=
  {| url := NOTIFICATION_SERVICE_URL ++ "/notifications"; json := data; timeout := 5 |}.

Definition shipment_call (data : Json) : Call :=
  {| url := SHIPMENT_SERVICE_URL ++ "/shipments"; json := data; timeout := 5 |}.

(** The rollback loop, which the source repeats at each failure point:
    [[
      for prev_reservation in reservations:
          try: requests.post(.../inventory/release, json=prev_reservation, timeout=5)
          except: pass
    ]] *)
Fixpoint release_all (env : Env) (reservations : list Reservation) (log : list Call)
  : list Call :=
  match reservations with
  | [] => log
  | prev_reservation :: rest =>
      match post env log (release_call prev_reservation) with
      | (Response _ _ _, log') => release_all env rest log'
      | (RequestException _, log') => (* except: pass *) release_all env rest log'
      end
  end.

(** ** Exceptions and results *)

Inductive Exception :=
| HTTPException (status_code : Z) (detail : string)
| OtherException (message : string).        (* any other Exception, by its str(e) *)

Inductive Outcome (A : Type) :=
| Returns (body : A)
| Raises (e : Exception).

Arguments Returns {A} body.
Arguments Raises {A} e.

(** ** Place order: Step 1, reserve inventory for all items *)

(** How the [for item in order_request.items] loop is left: by running to its
    end, or by an exception, with [reservations] as it stands at that point. *)
Inductive ReserveExit :=
| Reserved (reservations : list Reservation) (order_items : list OrderLine)
           (total_amount : float)
| Failed (e : Exception) (reservations : list Reservation).

Definition item_key (idempotency_key : string) (product : Z) : string :=
  idempotency_key ++ "_" ++ str product.

Definition reservation_of (idempotency_key : string) (id : Z) (item : OrderItem)
  : Reservation :=
  {| reservation_key := item_key idempotency_key (product_id item);
     reservation_order := str id |}.

Definition reserve_call_of (idempotency_key : string) (id : Z) (item : OrderItem) : Call :=
  reserve_call (reservation_data (product_id item) (quantity item)
                                 (item_key idempotency_key (product_id item)) (str id)).

Definition line_of (item : OrderItem) (price : float) : OrderLine :=
  {| line_product_id := product_id item;
     line_sku := sku item;
     line_quantity := quantity item;
     unit_price := price |}.

Fixpoint reserve_items (env : Env) (idempotency_key : string) (id : Z)
    (items : list OrderItem)
    (reservations : list Reservation) (order_items : list OrderLine)
    (total_amount : float) (log : list Call) : ReserveExit * list Call :=
  match items with
  | [] => (Reserved reservations order_items total_amount, log)
  | item :: rest =>
      let price := 29.99%float in     (* unit_price = 29.99  # Mock price *)
      match post env log (reserve_call_of idempotency_key id item) with
      | (Response status_code text json_error, log) =>
          if status_code =? 200 then
            (* reservation_result = response.json() *)
            match json_error with
            | Some e =>
                (* except requests.RequestException as e: rollback previous reservations *)
                let log := release_all env reservations log in
                (Failed (HTTPException 503 ("Inventory service unavailable: " ++ e))
                        reservations,
                 log)
            | None =>
                let reservations :=
                  (reservations ++ [reservation_of idempotency_key id item])%list in
                let order_items := (order_items ++ [line_of item price])%list in
                match float_of_int (quantity item) with
                | Some qty =>
                    reserve_items env idempotency_key id rest reservations order_items
                                  (total_amount + price * qty)%float log
                | None =>
                    (Failed (OtherException "int too large to convert to float")
                            reservations,
                     log)
                end
            end
          else
            (* Rollback previous reservations *)
            let log := release_all env reservations log in
            (Failed (HTTPException 409
                       ("Failed to reserve inventory for product "
                          ++ str (product_id item) ++ ": " ++ text))
                    reservations,
             log)
      | (RequestException e, log) =>
          (* Rollback previous reservations *)
          let log := release_all env reservations log in
          (Failed (HTTPException 503 ("Inventory service unavailable: " ++ e))
                  reservations,
           log)
      end
  end.

(** ** Place order: Steps 2 and 3, totals, signature and payment *)

Definition totals_data (subtotal tax shipping total : float) : list (string * float) :=
  [("subtotal", subtotal); ("tax", tax); ("shipping", shipping); ("total", total)].

Definition sign_totals (subtotal tax shipping total : float) : Digest :=
  sha256_hexdigest (json_dumps (totals_data subtotal tax shipping total) true).

Record PaymentData := {
  payment_order_id : Z;
  amount : float;
  payment_customer_id : Z;
  payment_idempotency_key : string
}.

(** How the [try] block of Step 3 ends: with [payment_success] and
    [payment_id] assigned, or by an exception. *)
Inductive PaymentStep :=
| Settled (payment_success : bool) (payment_id : option string)
| PaymentRaised (message : string).

(** The block as the source has it, a stub that posts nothing:
    [[
      # Mock payment processing (replace with actual payment service call)
      payment_success = True
      payment_id = f"pay_{int(time.time())}"
    ]] *)
Definition mock_payment (env : Env) (payment_data : PaymentData) : PaymentStep :=
  Settled true (Some ("pay_" ++ str (time_s env))).

(** ** Place order: Step 4, create the order record *)

Definition item_row (id : Z) (line : OrderLine) : ItemRow :=
  {| item_order_id := id;
     item_product_id := line_product_id line;
     item_sku := line_sku line;
     item_quantity := line_quantity line;
     item_unit_price := unit_price line |}.

(** [for item in order_items: cur.execute(INSERT INTO Order_Items ...)];
    [n] counts the writes of the request made so far. *)
Fixpoint insert_order_items (env : Env) (id : Z) (n : nat) (order_items : list OrderLine)
    (conn : Connection) : Connection + string * Connection :=
  match order_items with
  | [] => inl conn
  | item :: rest =>
      match store_error env n with
      | Some e => inr (e, conn)
      | None => insert_order_items env id (S n) rest (insert_order_item conn (item_row id item))
      end
  end.

(** The INSERT into [Orders], the INSERTs into [Order_Items], then
    [conn.commit()]; the first write that raises ends the step. *)
Definition create_order (env : Env) (conn : Connection) (row : OrderRow)
    (order_items : list OrderLine) : Connection + string * Connection :=
  match store_error env 0 with
  | Some e => inr (e, conn)
  | None =>
      match insert_order_items env (order_id row) 1 order_items (insert_order conn row) with
      | inr failure => inr failure
      | inl conn =>
          match store_error env (S (List.length order_items)) with
          | Some e => inr (e, conn)
          | None => inl (commit conn)
          end
      end
  end.

(** ** Place order: Steps 5 and 6, notification and shipment *)

Definition send_notification (env : Env) (customer : Z) (id : Z) (log : list Call)
  : list Call :=
  let data :=
    notification_data "ORDER_CONFIRMED" customer id
      ("Your order #" ++ str id
         ++ " has been confirmed and payment processed successfully.") in
  match post env log (notification_call data) with
  | (Response _ _ _, log) => log
  | (RequestException _, log) => log   (* Don't fail order if notification fails *)
  end.

Definition create_shipment (env : Env) (customer : Z) (id : Z)
    (order_items : list OrderLine) (log : list Call) : list Call :=
  match post env log (shipment_call (shipment_data id customer order_items)) with
  | (Response _ _ _, log) => log
  | (RequestException _, log) => log   (* Don't fail order if shipment creation fails *)
  end.

(** ** Place order *)

(** The ["order"] member of a successful response. *)
Record PlacedOrder := {
  placed_order_id : Z;
  placed_customer_id : Z;
  placed_order_status : string;
  placed_payment_status : string;
  placed_subtotal : float;
  placed_tax_amount : float;
  placed_shipping_amount : float;
  placed_order_total : float;
  placed_payment_id : option string;
  placed_idempotency_key : string;
  placed_created_at : Z;
  placed_items : list OrderLine
}.

Inductive PlaceOrderResponse :=
  (* {"message": "Order already exists", "order": existing_order, "idempotent": True} *)
| order_already_exists (existing_order : OrderRow) (existing_items : list ItemRow)
  (* {"message": "Order placed successfully", "order": {...}} *)
| order_placed (order : PlacedOrder).

(** Use provided idempotency key or generate one: the [Idempotency-Key]
    header, else the key of the body, else a fresh uuid. *)
Definition request_key (env : Env) (header : option string)
    (order_request : PlaceOrderRequest) : string :=
  match nonempty header with
  | Some key => key
  | None =>
      match nonempty (idempotency_key order_request) with
      | Some key => key
      | None => uuid4 env
      end
  end.

(** Generate order ID: [int(time.time() * 1000) % 2147483647]. *)
Definition new_order_id (env : Env) : Z := time_ms env mod 2147483647.

(** The handler of the outer [except Exception as e]: release every
    reservation, roll back, and answer 500. *)
Definition order_processing_failed {A} (env : Env) (e : string)
    (reservations : list Reservation) (conn : Connection) (log : list Call)
  : Outcome A * list Call * Database :=
  (Raises (HTTPException 500 ("Order processing failed: " ++ e)),
   release_all env reservations log,
   durable (rollback conn)).

(** [place_order], for a payment step [process_payment] in the place of the
    [try] block of Step 3. The result is the response or the HTTPException
    raised, the calls posted, in order, and the tables as committed when the
    connection is closed. *)
Definition place_order_with (process_payment : Env -> PaymentData -> PaymentStep)
    (env : Env) (header : option string) (order_request : PlaceOrderRequest)
    (db : Database) : Outcome PlaceOrderResponse * list Call * Database :=
  let idempotency_key := request_key env header order_request in
  let conn := get_connection db in
  (* Check for existing order with same idempotency key *)
  match select_order_by_key conn idempotency_key with
  | Some existing_order =>
      (Returns (order_already_exists existing_order
                  (select_items conn (order_id existing_order))),
       [], durable conn)
  | None =>
      let id := new_order_id env in
      (* Step 1: Reserve inventory for all items *)
      match reserve_items env idempotency_key id (items order_request) [] [] 0%float [] with
      | (Failed (HTTPException status_code detail) _, log) =>
          (* except HTTPException: raise *)
          (Raises (HTTPException status_code detail), log, durable conn)
      | (Failed (OtherException e) reservations, log) =>
          order_processing_failed env e reservations conn log
      | (Reserved reservations order_items total_amount, log) =>
          (* Step 2: Calculate totals *)
          let subtotal := total_amount in
          let tax_amount := (subtotal * TAX_RATE)%float in
          let shipping_amount := SHIPPING_COST in
          let total_with_tax_shipping := (subtotal + tax_amount + shipping_amount)%float in
          let totals_signature :=
            sign_totals subtotal tax_amount shipping_amount total_with_tax_shipping in
          (* Step 3: Process Payment *)
          let payment_data :=
            {| payment_order_id := id;
               amount := total_with_tax_shipping;
               payment_customer_id := customer_id order_request;
               payment_idempotency_key := "payment_" ++ idempotency_key |} in
          match process_payment env payment_data with
          | PaymentRaised e =>
              (* Payment failed - release all reservations *)
              (Raises (HTTPException 402 ("Payment processing failed: " ++ e)),
               release_all env reservations log, durable conn)
          | Settled false _ =>
              (* Payment failed - release all reservations *)
              (Raises (HTTPException 402 "Payment was declined"),
               release_all env reservations log, durable conn)
          | Settled true payment_id =>
              (* Step 4: Create order record *)
              let row :=
                {| order_id := id;
                   order_customer_id := customer_id order_request;
                   order_status := "CONFIRMED";
                   payment_status := "PAID";
                   order_total := total_with_tax_shipping;
                   subtotal := subtotal;
                   tax_amount := tax_amount;
                   shipping_amount := shipping_amount;
                   totals_signature := totals_signature;
                   order_idempotency_key := Some idempotency_key;
                   created_at := now env 0 |} in
              match create_order env conn row order_items with
              | inr (e, conn) => order_processing_failed env e reservations conn log
              | inl conn =>
                  (* Step 5: Send notifications *)
                  let log := send_notification env (customer_id order_request) id log in
                  (* Step 6: Create shipment *)
                  let log := create_shipment env (customer_id order_request) id order_items log in
                  (* Return successful order *)
                  (Returns (order_placed
                     {| placed_order_id := id;
                        placed_customer_id := customer_id order_request;
                        placed_order_status := "CONFIRMED";
                        placed_payment_status := "PAID";
                        placed_subtotal := subtotal;
                        placed_tax_amount := tax_amount;
                        placed_shipping_amount := shipping_amount;
                        placed_order_total := total_with_tax_shipping;
                        placed_payment_id := payment_id;
                        placed_idempotency_key := idempotency_key;
                        placed_created_at := now env 1;
                        placed_items := order_items |}),
                   log, durable conn)
              end
          end
      end
  end.

(** [place_order] as the source has it, with the stubbed payment. *)
Definition place_order : Env -> option string -> PlaceOrderRequest -> Database ->
    Outcome PlaceOrderResponse * list Call * Database :=
  place_order_with mock_payment.



(** ** Cancel order *)

Definition not_cancellable : list string := ["CANCELLED"; "SHIPPED"; "DELIVERED"].

Definition release_of_row (key : string) (id : Z) (item : ItemRow) : Reservation :=
  {| reservation_key := item_key key (item_product_id item);
     reservation_order := str id |}.

(** [cancel_order(order_id)]: the message returned or the HTTPException raised,
    the calls posted and the tables as committed at the end. *)
Definition cancel_order (env : Env) (id : Z) (db : Database)
  : Outcome (string * Z) * list Call * Database :=
  let conn := get_connection db in
  (* Get order details *)
  match select_order_by_id conn id with
  | None => (Raises (HTTPException 404 "Order not found"), [], durable conn)
  | Some order =>
      if existsb (String.eqb (order_status order)) not_cancellable then
        (Raises (HTTPException 400
                   ("Cannot cancel order with status: " ++ order_status order)),
         [], durable conn)
      else
        (* Release inventory reservations *)
        let log :=
          match nonempty (order_idempotency_key order) with
          | Some key =>
              release_all env (map (release_of_row key id) (select_items conn id)) []
          | None => []
          end in
        (* Update order status *)
        match store_error env 0 with
        | Some e => (Raises (HTTPException 500 e), log, durable (rollback conn))
        | None =>
            let conn := update_order_status conn "CANCELLED" id in
            match store_error env 1 with
            | Some e => (Raises (HTTPException 500 e), log, durable (rollback conn))
            | None =>
                (Returns ("Order cancelled successfully", id), log, durable (commit conn))
            end
        end
  end.

(** ** Vocabulary of the statements *)

(** A reserve call is granted when it is answered with status 200 and a
    body that decodes as JSON. *)
Definition is_granted (r : Reply) : bool :=
  match r with
  | Response status_code _ None => status_code =? 200
  | Response _ _ (Some _) => false
  | RequestException _ => false
  end.

(** [total_amount] after the loop has added the lines of [items] to [start]. *)
Definition sum_items (items : list OrderItem) (start : float) : float :=
  fold_left (fun total item => (total + 29.99 * to_float (quantity item))%float) items start.

(** The sum of unit price times quantity over stored lines, taken in the
    order of the rows, in binary64 as the amounts are. *)
Definition sum_rows (rows : list ItemRow) : float :=
  fold_left (fun total row => (total + item_unit_price row * to_float (item_quantity row))%float)
            rows 0%float.

(** The entries of [order_items] and the rows of [Order_Items] for the items
    of a request. *)
Definition lines_of (items : list OrderItem) : list OrderLine :=
  map (fun item => line_of item 29.99%float) items.

Definition rows_of (id : Z) (items : list OrderItem) : list ItemRow :=
  map (item_row id) (lines_of items).

(** The payment request Step 3 builds for a request whose lines sum to
    [total_amount]. *)
Definition payment_data_of (env : Env) (header : option string)
    (order_request : PlaceOrderRequest) (total_amount : float) : PaymentData :=
  {| payment_order_id := new_order_id env;
     amount := (total_amount + total_amount * TAX_RATE + SHIPPING_COST)%float;
     payment_customer_id := customer_id order_request;
     payment_idempotency_key := "payment_" ++ request_key env header order_request |}.

(** The three parts of a run: what is answered, what was posted, and the
    tables as committed at the end. *)
Definition outcome_of {A} (run : Outcome A * list Call * Database) : Outcome A :=
  fst (fst run).

Definition calls_of {A} (run : Outcome A * list Call * Database) : list Call :=
  snd (fst run).

Definition tables_after {A} (run : Outcome A * list Call * Database) : Database :=
  snd run.

(** The row of [Orders] that Step 4 inserts for a request. *)
Definition confirmed_order (env : Env) (header : option string)
    (order_request : PlaceOrderRequest) : OrderRow :=
  let total_amount := sum_items (items order_request) 0%float in
  {| order_id := new_order_id env;
     order_customer_id := customer_id order_request;
     order_status := "CONFIRMED";
     payment_status := "PAID";
     order_total := (total_amount + total_amount * TAX_RATE + SHIPPING_COST)%float;
     subtotal := total_amount;
     tax_amount := (total_amount * TAX_RATE)%float;
     shipping_amount := SHIPPING_COST;
     totals_signature :=
       sign_totals total_amount (total_amount * TAX_RATE)%float SHIPPING_COST
                   (total_amount + total_amount * TAX_RATE + SHIPPING_COST)%float;
     order_idempotency_key := Some (request_key env header order_request);
     created_at := now env 0 |}.

(** The tables once the order of a request and its lines are committed. *)
Definition with_order (env : Env) (header : option string)
    (order_request : PlaceOrderRequest) (db : Database) : Database :=
  {| Orders := Orders db ++ [confirmed_order env header order_request];
     Order_Items := Order_Items db ++ rows_of (new_order_id env) (items order_request) |}.

(** The tables once the order [id] is marked cancelled. *)
Definition with_cancelled (id : Z) (db : Database) : Database :=
  {| Orders := map (set_status "CANCELLED" id) (Orders db);
     Order_Items := Order_Items db |}.

(** The idempotency keys held by the orders of the tables. *)
Definition stored_keys (db : Database) : list string :=
  flat_map (fun row => match order_idempotency_key row with
                       | Some key => [key]
                       | None => []
                       end)
           (Orders db).

(** A call is a charge when it is posted to the payment service. *)
Definition is_charge (call : Call) : bool := String.prefix PAYMENT_SERVICE_URL (url call).

Definition is_release (call : Call) : bool :=
  (url call =? INVENTORY_SERVICE_URL ++ "/inventory/release")%string.

Definition is_reserve (call : Call) : bool :=
  (url call =? INVENTORY_SERVICE_URL ++ "/inventory/reserve")%string.

(** The two calls posted after the commit, Steps 5 and 6. *)
Definition dispatch_calls (env : Env) (order_request : PlaceOrderRequest) : list Call :=
  [notification_call
     (notification_data "ORDER_CONFIRMED" (customer_id order_request) (new_order_id env)
        ("Your order #" ++ str (new_order_id env)
           ++ " has been confirmed and payment processed successfully."));
   shipment_call
     (shipment_data (new_order_id env) (customer_id order_request)
        (lines_of (items order_request)))].

(** ** Sample requests *)

(** An environment in which every call is answered with 200 and the store
    accepts every write. *)
Definition all_granted : Env :=
  {| uuid4 := "3f0c2a9e-7d41-4b7e-9a55-0c1d2e3f4a5b";
     time_ms := 1700000000123;
     time_s := 1700000000;
     now := fun n => 1700000000 + Z.of_nat n;
     respond := fun _ _ => Response 200 "{}" None;
     store_error := fun _ => None |}.

(** The same, but the n-th post of the request is answered by [r]. *)
Definition answering (n : nat) (r : Reply) : Env :=
  {| uuid4 := uuid4 all_granted;
     time_ms := time_ms all_granted;
     time_s := time_s all_granted;
     now := now all_granted;
     respond := fun k call => if Nat.eqb k n then r else respond all_granted k call;
     store_error := store_error all_granted |}.

(** The same, but the n-th write of the request raises [e]. *)
Definition failing_write (n : nat) (e : string) : Env :=
  {| uuid4 := uuid4 all_granted;
     time_ms := time_ms all_granted;
     time_s := time_s all_granted;
     now := now all_granted;
     respond := respond all_granted;
     store_error := fun k => if Nat.eqb k n then Some e else None |}.

Definition empty_db : Database := {| Orders := []; Order_Items := [] |}.

Definition item (product : Z) (s : string) (qty : Z) : OrderItem :=
  {| product_id := product; sku := s; quantity := qty |}.

Definition request (key : string) (its : list OrderItem) : PlaceOrderRequest :=
  {| customer_id := 42; items := its; idempotency_key := Some key |}.

(** Items [{qty:2}] and [{qty:1}] of the arithmetic example. *)
Definition two_items : list OrderItem := [item 1 "LAPTOP001" 2; item 2 "MOUSE001" 1].

Definition three_items : list OrderItem :=
  [item 1 "LAPTOP001" 2; item 2 "MOUSE001" 1; item 3 "CABLE001" 5].

(** What [response.json()] says of a body that is not JSON. *)
Definition not_json : option string := Some "Expecting value: line 1 column 1 (char 0)".

(** An environment in which the inventory, notification and shipment services
    answer 200 and the payment service declines whatever it is asked. *)
Definition payment_declines : Env :=
  {| uuid4 := uuid4 all_granted;
     time_ms := time_ms all_granted;
     time_s := time_s all_granted;
     now := now all_granted;
     respond := fun k call =>
                  if is_charge call then Response 402 "Payment declined" not_json
                  else respond all_granted k call;
     store_error := store_error all_granted |}.

(** A stored order for one unit of product 1, with the given status and key. *)
Definition stored_order (id : Z) (status : string) (key : option string) : OrderRow :=
  {| order_id := id;
     order_customer_id := 42;
     order_status := status;
     payment_status := "PAID";
     order_total := (29.99 + 29.99 * TAX_RATE + SHIPPING_COST)%float;
     subtotal := 29.99%float;
     tax_amount := (29.99 * TAX_RATE)%float;
     shipping_amount := SHIPPING_COST;
     totals_signature :=
       sign_totals 29.99%float (29.99 * TAX_RATE)%float SHIPPING_COST
                   (29.99 + 29.99 * TAX_RATE + SHIPPING_COST)%float;
     order_idempotency_key := key;
     created_at := 1699999999 |}.

Definition db_with (row : OrderRow) : Database :=
  {| Orders := [row];
     Order_Items := [item_row (order_id row) (line_of (item 1 "LAPTOP001" 1) 29.99%float)] |}.

(** Two stored orders, 1002 under "key-9" and 1001 under "key-1", with
    their lines interleaved in [Order_Items]. *)
Definition two_orders_db : Database :=
  {| Orders := [stored_order 1002 "CONFIRMED" (Some "key-9");
                stored_order 1001 "CONFIRMED" (Some "key-1")];
     Order_Items := [item_row 1001 (line_of (item 1 "LAPTOP001" 1) 29.99%float);
                     item_row 1002 (line_of (item 2 "MOUSE001" 3) 29.99%float);
                     item_row 1001 (line_of (item 3 "CABLE001" 2) 29.99%float)] |}.

(** ** Reading orders *)

(** [str(e)] for an exception; an HTTPException is printed by Starlette as
    its status code, a colon and its detail. *)
Definition str_exception (e : Exception) : string :=
  match e with
  | HTTPException status_code detail => str status_code ++ ": " ++ detail
  | OtherException message => message
  end.

(** [get_order_by_id(order_id)]: the order with its ["items"]. The
    HTTPException 404 is raised inside the [try], whose only handler is
    [except Exception as e: raise HTTPException(status_code=500, detail=str(e))]. *)
Definition get_order_by_id (id : Z) (db : Database) : Outcome (OrderRow * list ItemRow) :=
  let conn := get_connection db in
  match select_order_by_id conn id with
  | None =>
      Raises (HTTPException 500 (str_exception (HTTPException 404 "Order not found")))
  | Some order => Returns (order, select_items conn id)
  end.

(** [ORDER BY created_at DESC]: the rows by decreasing [created_at]; rows of
    equal [created_at] are kept in the order of the table. *)
Fixpoint insert_recent (row : OrderRow) (sorted : list OrderRow) : list OrderRow :=
  match sorted with
  | [] => [row]
  | row' :: rest =>
      if created_at row' <=? created_at row then row :: sorted
      else row' :: insert_recent row rest
  end.

Definition order_by_created_at_desc (rows : list OrderRow) : list OrderRow :=
  fold_right insert_recent [] rows.

(** [get_orders(limit)]: [{"orders": orders, "count": len(orders)}] for
    [SELECT * FROM Orders ORDER BY created_at DESC LIMIT %s]. MySQL refuses a
    negative LIMIT; [syntax_error] is the text of that error. *)
Definition get_orders (syntax_error : string) (limit : Z) (db : Database)
  : Outcome (list OrderRow * Z) :=
  let conn := get_connection db in
  if limit <? 0 then Raises (HTTPException 500 syntax_error)
  else
    let orders := firstn (Z.to_nat limit) (order_by_created_at_desc (Orders (view conn))) in
    Returns (orders, Z.of_nat (List.length orders)).

(** ** The shipments service *)

(** [class Shipment(BaseModel)], also a row of [Shipments]. *)
Record Shipment := {
  shipment_id : Z;
  shipment_order_id : Z;
  carrier : string;
  shipment_status : string;
  tracking_no : string;
  shipped_at : option Z;
  delivered_at : option Z
}.

(** A connection to [shipping_db], a transaction as that to [order_db]. *)
Record ShippingConnection := {
  shipments_durable : list Shipment;
  shipments_view : list Shipment
}.

Definition get_shipping_connection (db : list Shipment) : ShippingConnection :=
  {| shipments_durable := db; shipments_view := db |}.

Definition shipping_commit (conn : ShippingConnection) : ShippingConnection :=
  {| shipments_durable := shipments_view conn; shipments_view := shipments_view conn |}.

Definition shipping_rollback (conn : ShippingConnection) : ShippingConnection :=
  {| shipments_durable := shipments_durable conn; shipments_view := shipments_durable conn |}.

Definition has_shipment_id (id : Z) (row : Shipment) : bool := shipment_id row =? id.

(** The error of an INSERT under a [shipment_id] already in the table:
    [db_setup.py] declares [shipment_id INT PRIMARY KEY]. *)
Definition duplicate_entry (id : Z) : string :=
  "1062 (23000): Duplicate entry '" ++ str id ++ "' for key 'Shipments.PRIMARY'".

(** [cur.execute(INSERT INTO Shipments ...)], the first write of the request. *)
Definition insert_shipment (env : Env) (conn : ShippingConnection) (shipment : Shipment)
  : ShippingConnection + string :=
  match store_error env 0 with
  | Some e => inr e
  | None =>
      if existsb (has_shipment_id (shipment_id shipment)) (shipments_view conn)
      then inr (duplicate_entry (shipment_id shipment))
      else inl {| shipments_durable := shipments_durable conn;
                  shipments_view := shipments_view conn ++ [shipment] |}
  end.

(** [add_shipment(shipment)]: the message returned or the HTTPException
    raised, and the table as committed at the end. *)
Definition add_shipment (env : Env) (shipment : Shipment) (db : list Shipment)
  : Outcome string * list Shipment :=
  let conn := get_shipping_connection db in
  match insert_shipment env conn shipment with
  | inr e => (Raises (HTTPException 500 e), shipments_durable (shipping_rollback conn))
  | inl conn =>
      match store_error env 1 with
      | Some e => (Raises (HTTPException 500 e), shipments_durable (shipping_rollback conn))
      | None =>
          (Returns "✅ Shipment inserted successfully",
           shipments_durable (shipping_commit conn))
      end
  end.

(** [get_shipment_by_id(shipment_id)]; the 404 is raised inside the [try]
    and caught by its [except Exception]. *)
Definition get_shipment_by_id (id : Z) (db : list Shipment) : Outcome Shipment :=
  let conn := get_shipping_connection db in
  match find (has_shipment_id id) (shipments_view conn) with
  | None =>
      Raises (HTTPException 500 (str_exception (HTTPException 404 "Shipment not found")))
  | Some shipment => Returns shipment
  end.

(** The row an UPDATE leaves under [id]: every column but [shipment_id] is
    taken from the request. *)
Definition updated_row (id : Z) (updated_shipment : Shipment) : Shipment :=
  {| shipment_id := id;
     shipment_order_id := shipment_order_id updated_shipment;
     carrier := carrier updated_shipment;
     shipment_status := shipment_status updated_shipment;
     tracking_no := tracking_no updated_shipment;
     shipped_at := shipped_at updated_shipment;
     delivered_at := delivered_at updated_shipment |}.

Definition set_shipment (id : Z) (updated_shipment : Shipment) (row : Shipment) : Shipment :=
  if has_shipment_id id row then updated_row id updated_shipment else row.

Definition option_eqb (a b : option Z) : bool :=
  match a, b with
  | Some x, Some y => x =? y
  | None, None => true
  | _, _ => false
  end.

(** Whether the UPDATE leaves a row as it was. *)
Definition same_columns (updated_shipment : Shipment) (row : Shipment) : bool :=
  ((shipment_order_id row =? shipment_order_id updated_shipment)
   && (carrier row =? carrier updated_shipment)%string
   && (shipment_status row =? shipment_status updated_shipment)%string
   && (tracking_no row =? tracking_no updated_shipment)%string
   && option_eqb (shipped_at row) (shipped_at updated_shipment)
   && option_eqb (delivered_at row) (delivered_at updated_shipment))%bool.

(** [cur.rowcount] after the UPDATE: the rows matched when the connection
    was opened with the flag FOUND_ROWS, the rows changed otherwise. *)
Definition update_rowcount (found_rows : bool) (id : Z) (updated_shipment : Shipment)
    (rows : list Shipment) : nat :=
  List.length
    (filter (fun row => (has_shipment_id id row
                         && (found_rows || negb (same_columns updated_shipment row)))%bool)
            rows).

(** [update_shipment(shipment_id, updated_shipment)]. The commit comes
    before the test of [cur.rowcount], and the 404 of that test is caught by
    the [except Exception] of the [try]. *)
Definition update_shipment (env : Env) (found_rows : bool) (id : Z)
    (updated_shipment : Shipment) (db : list Shipment) : Outcome string * list Shipment :=
  let conn := get_shipping_connection db in
  match store_error env 0 with
  | Some e => (Raises (HTTPException 500 e), shipments_durable (shipping_rollback conn))
  | None =>
      let rowcount := update_rowcount found_rows id updated_shipment (shipments_view conn) in
      let conn := {| shipments_durable := shipments_durable conn;
                     shipments_view := map (set_shipment id updated_shipment)
                                           (shipments_view conn) |} in
      match store_error env 1 with
      | Some e => (Raises (HTTPException 500 e), shipments_durable (shipping_rollback conn))
      | None =>
          let conn := shipping_commit conn in
          if Nat.eqb rowcount 0 then
            (Raises (HTTPException 500
                       (str_exception (HTTPException 404 "Shipment not found"))),
             shipments_durable (shipping_rollback conn))
          else (Returns "✅ Shipment updated successfully", shipments_durable conn)
      end
  end.

(** [delete_shipment(shipment_id)], of the same shape. *)
Definition delete_shipment (env : Env) (id : Z) (db : list Shipment)
  : Outcome string * list Shipment :=
  let conn := get_shipping_connection db in
  match store_error env 0 with
  | Some e => (Raises (HTTPException 500 e), shipments_durable (shipping_rollback conn))
  | None =>
      let rowcount := List.length (filter (has_shipment_id id) (shipments_view conn)) in
      let conn := {| shipments_durable := shipments_durable conn;
                     shipments_view := filter (fun row => negb (has_shipment_id id row))
                                              (shipments_view conn) |} in
      match store_error env 1 with
      | Some e => (Raises (HTTPException 500 e), shipments_durable (shipping_rollback conn))
      | None =>
          let conn := shipping_commit conn in
          if Nat.eqb rowcount 0 then
            (Raises (HTTPException 500
                       (str_exception (HTTPException 404 "Shipment not found"))),
             shipments_durable (shipping_rollback conn))
          else (Returns ("🗑️ Shipment " ++ str id ++ " deleted successfully"),
                shipments_durable conn)
      end
  end.

(** A sample shipment. *)
Definition shipment (id : Z) (status : string) : Shipment :=
  {| shipment_id := id;
     shipment_order_id := 1001;
     carrier := "UPS";
     shipment_status := status;
     tracking_no := "1Z999AA10123456784";
     shipped_at := None;
     delivered_at := None |}.

(** Two rows of [Orders] that differ at most by their status. *)
Definition same_but_status (old new : OrderRow) : Prop :=
  order_id new = order_id old
  /\ order_customer_id new = order_customer_id old
  /\ payment_status new = payment_status old
  /\ order_total new = order_total old
  /\ subtotal new = subtotal old
  /\ tax_amount new = tax_amount old
  /\ shipping_amount new = shipping_amount old
  /\ totals_signature new = totals_signature old
  /\ order_idempotency_key new = order_idempotency_key old
  /\ created_at new = created_at old.

(** [a] is at least as recent as [b]. *)
Definition not_older (a b : OrderRow) : Prop := created_at b <= created_at a.

(** * Properties *)

(** ** The log of calls *)

Lemma release_all_log (env : Env) (reservations : list Reservation) :
  forall log, release_all env reservations log = (log ++ map release_call reservations)%list.
Proof.
  induction reservations as [|r rest IH]; intro log; simpl.
  - now rewrite app_nil_r.
  - unfold post.
    destruct (respond env (List.length log) (release_call r));
      rewrite IH, <- app_assoc; reflexivity.
Qed.

Lemma float_of_int_some (n : Z) :
  float_of_int n <> None -> float_of_int n = Some (to_float n).
Proof.
  unfold float_of_int. destruct (is_infinity (to_float n)); congruence.
Qed.

Section ReserveLoop.

Variables (env : Env) (key : string) (id : Z).

(** The loop over a run of granted items: it goes on with one reservation,
    one line and one call more for each of them. *)
Lemma reserve_items_granted (pre rest : list OrderItem) :
  forall reservations order_items total_amount log,
    (forall i it, nth_error pre i = Some it ->
       is_granted (respond env (List.length log + i) (reserve_call_of key id it)) = true
       /\ float_of_int (quantity it) <> None) ->
    reserve_items env key id (pre ++ rest) reservations order_items total_amount log
    = reserve_items env key id rest
        (reservations ++ map (reservation_of key id) pre)
        (order_items ++ lines_of pre)
        (sum_items pre total_amount)
        (log ++ map (reserve_call_of key id) pre).
Proof.
  induction pre as [|it pre' IH]; intros reservations order_items total_amount log Hpre.
  - simpl. now rewrite !app_nil_r.
  - destruct (Hpre 0%nat it eq_refl) as [Hgranted Hfits].
    rewrite Nat.add_0_r in Hgranted.
    cbn [app reserve_items]. unfold post.
    destruct (respond env (List.length log) (reserve_call_of key id it))
      as [status_code text [e|]|e]; simpl in Hgranted; try discriminate.
    rewrite Hgranted, (float_of_int_some _ Hfits).
    rewrite IH.
    + cbn [map lines_of sum_items fold_left]. now rewrite <- !app_assoc.
    + intros i it' Hi. rewrite length_app. cbn [List.length].
      replace (List.length log + 1 + i)%nat with (List.length log + S i)%nat by lia.
      apply (Hpre (S i) it' Hi).
Qed.

(** When the loop runs to its end, every item was reserved once, in order,
    and nothing was released. *)
Lemma reserve_items_reserved (items : list OrderItem) :
  forall reservations order_items total_amount log reservations' order_items' total' log',
    reserve_items env key id items reservations order_items total_amount log
    = (Reserved reservations' order_items' total', log') ->
    reservations' = (reservations ++ map (reservation_of key id) items)%list
    /\ order_items' = (order_items ++ lines_of items)%list
    /\ total' = sum_items items total_amount
    /\ log' = (log ++ map (reserve_call_of key id) items)%list.
Proof.
  induction items as [|it rest IH];
    intros reservations order_items total_amount log reservations' order_items' total' log' H.
  - simpl in H. injection H as <- <- <- <-. now rewrite !app_nil_r.
  - cbn [reserve_items] in H. unfold post in H.
    destruct (respond env (List.length log) (reserve_call_of key id it))
      as [status_code text [e|]|e]; try discriminate;
      destruct (status_code =? 200); try discriminate.
    unfold float_of_int in H.
    destruct (is_infinity (to_float (quantity it))); [discriminate|].
    apply IH in H. destruct H as (-> & -> & -> & ->).
    cbn [map lines_of sum_items fold_left]. now rewrite <- !app_assoc.
Qed.

End ReserveLoop.

(** The loop raises no HTTPException but 409 and 503. *)
Lemma reserve_items_failure_status (env : Env) (key : string) (id : Z)
    (items : list OrderItem) :
  forall reservations order_items total_amount log status_code detail reservations' log',
    reserve_items env key id items reservations order_items total_amount log
    = (Failed (HTTPException status_code detail) reservations', log') ->
    status_code = 409 \/ status_code = 503.
Proof.
  induction items as [|it rest IH];
    intros reservations order_items total_amount log status_code detail reservations' log' H.
  - discriminate H.
  - cbn [reserve_items] in H. unfold post in H.
    destruct (respond env (List.length log) (reserve_call_of key id it))
      as [s text [e|]|e].
    + destruct (s =? 200); injection H as <- _ _ _; [now right | now left].
    + destruct (s =? 200).
      * destruct (float_of_int (quantity it)); [|discriminate H].
        now apply IH in H.
      * injection H as <- _ _ _. now left.
    + injection H as <- _ _ _. now right.
Qed.

(** When every Reserve call of a request is granted, the loop reserves all
    its items. *)
Lemma reserve_items_all_granted (env : Env) (key : string) (id : Z)
    (items : list OrderItem) :
  (forall i it, nth_error items i = Some it ->
     is_granted (respond env i (reserve_call_of key id it)) = true
     /\ float_of_int (quantity it) <> None) ->
  reserve_items env key id items [] [] 0%float []
  = (Reserved (map (reservation_of key id) items) (lines_of items)
              (sum_items items 0%float),
     map (reserve_call_of key id) items).
Proof.
  intros Hgranted.
  rewrite <- (app_nil_r items) at 1.
  now rewrite reserve_items_granted by (intros i it Hi; now apply Hgranted).
Qed.

(** ** Idempotency *)

(** The order a lookup by key returns is the first order of the table that
    holds the key. *)
Lemma select_order_by_key_first (rows : list OrderRow) (key : string) (existing : OrderRow) :
  find (has_key key) rows = Some existing ->
  exists earlier later,
    rows = (earlier ++ existing :: later)%list
    /\ order_idempotency_key existing = Some key
    /\ forall row, In row earlier -> order_idempotency_key row <> Some key.
Proof.
  induction rows as [|first rest IH]; simpl; [discriminate|].
  destruct (has_key key first) eqn:Hfirst.
  - intros H. injection H as <-. exists [], rest.
    split; [reflexivity|]. split; [|intros row []].
    unfold has_key in Hfirst. destruct (order_idempotency_key first) as [k|]; [|discriminate].
    apply String.eqb_eq in Hfirst. now subst k.
  - intros H. destruct (IH H) as (earlier & later & -> & Hkey & Hearlier).
    exists (first :: earlier), later.
    split; [reflexivity|]. split; [exact Hkey|].
    intros row [<- | Hin]; [|now apply Hearlier].
    intros Heq. unfold has_key in Hfirst. rewrite Heq, String.eqb_refl in Hfirst.
    discriminate.
Qed.

(** C1. A PlaceOrder request whose idempotency key is the key of a stored
    order returns, as "already exists", the first stored order that holds
    the key, together with its lines: the rows of [Order_Items] whose order
    id is the id of that order, and no other row. It posts no call at all (no
    Reserve, no Charge) and leaves the tables as they were, whatever the
    items of the request. *)
Theorem duplicate_key_returns_existing_order :
  forall env header order_request db stored,
    In stored (Orders db) ->
    order_idempotency_key stored = Some (request_key env header order_request) ->
    exists earlier existing later,
      Orders db = (earlier ++ existing :: later)%list
      /\ order_idempotency_key existing = Some (request_key env header order_request)
      /\ (forall row, In row earlier ->
            order_idempotency_key row <> Some (request_key env header order_request))
      /\ place_order env header order_request db
         = (Returns (order_already_exists existing
                       (filter (fun line => item_order_id line =? order_id existing)
                               (Order_Items db))),
            [], db).
Proof.
  intros env header order_request db stored Hin Hkey.
  set (key := request_key env header order_request) in *.
  destruct (select_order_by_key (get_connection db) key) as [existing|] eqn:Hfind.
  - destruct (select_order_by_key_first _ _ _ Hfind)
      as (earlier & later & Horders & Hexisting & Hearlier).
    exists earlier, existing, later.
    split; [exact Horders|]. split; [exact Hexisting|]. split; [exact Hearlier|].
    unfold place_order, place_order_with. fold key. now rewrite Hfind.
  - exfalso. unfold select_order_by_key in Hfind.
    apply (find_none _ _ Hfind) in Hin. unfold has_key in Hin.
    rewrite Hkey, String.eqb_refl in Hin. discriminate.
Qed.

(** A second request under "key-1", with other items, on tables that hold
    two orders: the order 1001 is returned with its two lines, and the line
    of the order 1002 is left out. *)
Lemma duplicate_key_returns_existing_order_witness :
  place_order all_granted None (request "key-1" three_items) two_orders_db
  = (Returns (order_already_exists
                (stored_order 1001 "CONFIRMED" (Some "key-1"))
                [item_row 1001 (line_of (item 1 "LAPTOP001" 1) 29.99%float);
                 item_row 1001 (line_of (item 3 "CABLE001" 2) 29.99%float)]),
     [], two_orders_db).
Proof.
  destruct (duplicate_key_returns_existing_order
              all_granted None (request "key-1" three_items) two_orders_db
              (stored_order 1001 "CONFIRMED" (Some "key-1"))
              (or_intror (or_introl eq_refl)) eq_refl)
    as (earlier & existing & later & Horders & Hkey & Hearlier & Hrun).
  destruct earlier as [|first [|second earlier]].
  - injection Horders as <- _. discriminate Hkey.
  - injection Horders as _ <- _. exact Hrun.
  - injection Horders as _ _ Hrest. now destruct earlier.
Defined.

(** ** Compensation of a failed reservation *)

(** C2, as the code has it. When the Reserve calls of the items before
    [failing] are granted (answered 200 with a JSON body) and that of
    [failing] is not, the calls of the request are: one Reserve for each item
    up to and including [failing], then one Release for each item before it,
    in order, keyed by the key of the request and the product id, and nothing
    for [failing] and the items after it; the tables are unchanged. The
    request fails with 409 whenever the Reserve call was answered with a
    status other than 200, be it a denial or an error of the inventory
    service, and with 503 only when the call raised (connection error,
    timeout) or its 200 carried a body that is not JSON. *)
Theorem reservation_failure_releases_prior_grants :
  forall env header order_request db pre failing rest,
    let key := request_key env header order_request in
    let id := new_order_id env in
    let reserve := fun it : OrderItem =>
      {| url := "http://inventoryservice:3000/v1/inventory/reserve";
         json := reservation_data (product_id it) (quantity it)
                                  (key ++ "_" ++ str (product_id it)) (str id);
         timeout := 10 |} in
    let release := fun it : OrderItem =>
      {| url := "http://inventoryservice:3000/v1/inventory/release";
         json := release_data {| reservation_key := key ++ "_" ++ str (product_id it);
                                 reservation_order := str id |};
         timeout := 5 |} in
    select_order_by_key (get_connection db) key = None ->
    items order_request = (pre ++ failing :: rest)%list ->
    (forall i it, nth_error pre i = Some it ->
       (exists text, respond env i (reserve it) = Response 200 text None)
       /\ float_of_int (quantity it) <> None) ->
    (forall text, respond env (List.length pre) (reserve failing) <> Response 200 text None) ->
    exists status_code detail,
      place_order env header order_request db
      = (Raises (HTTPException status_code detail),
         (map reserve (pre ++ [failing]) ++ map release pre)%list,
         db)
      /\ ((status_code = 409
           /\ exists answered text json_error,
                respond env (List.length pre) (reserve failing)
                = Response answered text json_error
                /\ answered <> 200
                /\ detail = "Failed to reserve inventory for product "
                              ++ str (product_id failing) ++ ": " ++ text)
          \/ (status_code = 503
              /\ exists e,
                   (respond env (List.length pre) (reserve failing) = RequestException e
                    \/ exists text,
                         respond env (List.length pre) (reserve failing)
                         = Response 200 text (Some e))
                   /\ detail = "Inventory service unavailable: " ++ e)).
Proof.
  intros env header order_request db pre failing rest key id reserve release
         Hnew Hitems Hpre Hfail.
  assert (Hcalls : ((map (reserve_call_of key id) pre ++ [reserve_call_of key id failing])
                      ++ map release_call (map (reservation_of key id) pre))%list
                   = (map reserve (pre ++ [failing]) ++ map release pre)%list).
  { now rewrite map_app, map_map. }
  unfold place_order, place_order_with. fold key id. rewrite Hnew, Hitems.
  rewrite reserve_items_granted.
  2:{ intros i it Hi. destruct (Hpre i it Hi) as [[text Hreply] Hfits].
      split; [|exact Hfits].
      change (reserve_call_of key id it) with (reserve it). cbn [List.length Nat.add].
      now rewrite Hreply. }
  cbn [app List.length reserve_items]. unfold post. rewrite length_map.
  change (reserve_call_of key id failing) with (reserve failing).
  destruct (respond env (List.length pre) (reserve failing))
    as [answered text [e|]|e] eqn:Hreply.
  - destruct (answered =? 200) eqn:Hstatus.
    + apply Z.eqb_eq in Hstatus. subst answered.
      exists 503, ("Inventory service unavailable: " ++ e).
      rewrite release_all_log. split; [now rewrite <- Hcalls|].
      right. split; [reflexivity|]. exists e. split; [right; now exists text | reflexivity].
    + apply Z.eqb_neq in Hstatus. exists 409. eexists.
      rewrite release_all_log. split; [now rewrite <- Hcalls|].
      left. split; [reflexivity|]. exists answered, text, (Some e).
      split; [reflexivity|]. split; [exact Hstatus | reflexivity].
  - destruct (answered =? 200) eqn:Hstatus.
    + apply Z.eqb_eq in Hstatus. subst answered. now destruct (Hfail text).
    + apply Z.eqb_neq in Hstatus. exists 409. eexists.
      rewrite release_all_log. split; [now rewrite <- Hcalls|].
      left. split; [reflexivity|]. exists answered, text, None.
      split; [reflexivity|]. split; [exact Hstatus | reflexivity].
  - exists 503, ("Inventory service unavailable: " ++ e).
    rewrite release_all_log. split; [now rewrite <- Hcalls|].
    right. split; [reflexivity|]. exists e. split; [now left | reflexivity].
Qed.

(** Three items, the second denied with 409: Reserve, Reserve, then one
    Release, and the request fails with 409. *)
Lemma reservation_failure_releases_prior_grants_witness :
  place_order (answering 1 (Response 409 "insufficient stock" not_json)) None
              (request "key-2" three_items) empty_db
  = (Raises (HTTPException 409
               "Failed to reserve inventory for product 2: insufficient stock"),
     [{| url := "http://inventoryservice:3000/v1/inventory/reserve";
         json := reservation_data 1 2 "key-2_1" "1340435346";
         timeout := 10 |};
      {| url := "http://inventoryservice:3000/v1/inventory/reserve";
         json := reservation_data 2 1 "key-2_2" "1340435346";
         timeout := 10 |};
      {| url := "http://inventoryservice:3000/v1/inventory/release";
         json := release_data {| reservation_key := "key-2_1";
                                 reservation_order := "1340435346" |};
         timeout := 5 |}],
     empty_db).
Proof.
  destruct (reservation_failure_releases_prior_grants
              (answering 1 (Response 409 "insufficient stock" not_json)) None
              (request "key-2" three_items) empty_db
              [item 1 "LAPTOP001" 2] (item 2 "MOUSE001" 1) [item 3 "CABLE001" 5]
              eq_refl eq_refl)
    as (status_code & detail & Hrun & Hstatus).
  - intros [|[|i]] it Hi; simpl in Hi; try discriminate.
    injection Hi as <-. split; [now exists "{}" | vm_compute; discriminate].
  - intros text. discriminate.
  - destruct Hstatus as [(-> & answered & text & json_error & Hreply & _ & ->)
                        | (-> & e & [Hreply | [text Hreply]] & _)];
      try discriminate Hreply.
    injection Hreply as _ <- _. exact Hrun.
Defined.

(** C2, as stated, fails: the inventory service answers the Reserve call of
    the second item with an error, HTTP 500, and the request fails with 409
    (conflict), not with 503 (service unavailable). *)
Lemma inventory_error_is_answered_with_conflict :
  outcome_of (place_order (answering 1 (Response 500 "Internal Server Error" not_json))
                          None (request "key-2" three_items) empty_db)
  = Raises (HTTPException 409
              "Failed to reserve inventory for product 2: Internal Server Error")
  /\ (forall detail,
        outcome_of (place_order (answering 1 (Response 500 "Internal Server Error" not_json))
                                None (request "key-2" three_items) empty_db)
        <> Raises (HTTPException 503 detail))
  /\ tables_after (place_order (answering 1 (Response 500 "Internal Server Error" not_json))
                               None (request "key-2" three_items) empty_db)
     = empty_db.
Proof.
  split; [vm_compute; reflexivity|]. split; [|reflexivity].
  intros detail H. vm_compute in H. discriminate H.
Qed.

(** ** The writes of Step 4 *)

(** The inserts of the lines touch the view of the connection only. *)
Lemma insert_order_items_spec (env : Env) (id : Z) (order_items : list OrderLine) :
  forall n conn,
    match insert_order_items env id n order_items conn with
    | inl conn' =>
        durable conn' = durable conn
        /\ view conn' = {| Orders := Orders (view conn);
                           Order_Items := Order_Items (view conn)
                                            ++ map (item_row id) order_items |}
    | inr (_, conn') => durable conn' = durable conn
    end.
Proof.
  induction order_items as [|line rest IH]; intros n conn; simpl.
  - split; [reflexivity|]. rewrite app_nil_r. now destruct (view conn).
  - destruct (store_error env n); [reflexivity|].
    specialize (IH (S n) (insert_order_item conn (item_row id line))).
    destruct (insert_order_items env id (S n) rest _) as [conn'|[e conn']].
    + destruct IH as [Hd Hv]. split; [exact Hd|].
      rewrite Hv. simpl. now rewrite <- app_assoc.
    + exact IH.
Qed.

(** Step 4 writes all or nothing: it commits the order with all its lines,
    or it raises with the committed tables untouched. *)
Lemma create_order_spec (env : Env) (conn : Connection) (row : OrderRow)
    (order_items : list OrderLine) :
  match create_order env conn row order_items with
  | inl conn' =>
      durable conn' = {| Orders := Orders (view conn) ++ [row];
                         Order_Items := Order_Items (view conn)
                                          ++ map (item_row (order_id row)) order_items |}
  | inr (_, conn') => durable conn' = durable conn
  end.
Proof.
  unfold create_order.
  destruct (store_error env 0); [reflexivity|].
  pose proof (insert_order_items_spec env (order_id row) order_items 1
                (insert_order conn row)) as Hitems.
  destruct (insert_order_items env (order_id row) 1 order_items (insert_order conn row))
    as [conn'|[e conn']].
  - destruct Hitems as [Hd Hv].
    destruct (store_error env (S (List.length order_items))).
    + exact Hd.
    + simpl. exact Hv.
  - exact Hitems.
Qed.

Lemma sum_rows_of (id : Z) (items : list OrderItem) :
  sum_rows (rows_of id items) = sum_items items 0%float.
Proof.
  unfold sum_rows, sum_items, rows_of, lines_of.
  generalize 0%float.
  induction items as [|it rest IH]; intro start; simpl; [reflexivity|apply IH].
Qed.

(** ** The two ways a run of place_order ends *)

(** Either nothing is committed and no order is returned as placed, or the
    payment step approved, the order of the request and all its lines are
    committed together, and the response carries the amounts stored. *)
Lemma place_order_with_cases (process_payment : Env -> PaymentData -> PaymentStep)
    (env : Env) (header : option string) (order_request : PlaceOrderRequest)
    (db : Database) :
  let run := place_order_with process_payment env header order_request db in
  let row := confirmed_order env header order_request in
  (tables_after run = db
   /\ forall placed, outcome_of run <> Returns (order_placed placed))
  \/ (tables_after run = with_order env header order_request db
      /\ (exists payment_id,
            process_payment env
              (payment_data_of env header order_request
                 (sum_items (items order_request) 0%float))
            = Settled true payment_id)
      /\ exists placed,
           outcome_of run = Returns (order_placed placed)
           /\ placed_order_id placed = order_id row
           /\ placed_order_status placed = order_status row
           /\ placed_payment_status placed = payment_status row
           /\ placed_subtotal placed = subtotal row
           /\ placed_tax_amount placed = tax_amount row
           /\ placed_shipping_amount placed = shipping_amount row
           /\ placed_order_total placed = order_total row
           /\ placed_items placed = lines_of (items order_request)).
Proof.
  intros run row. subst run row. unfold place_order_with.
  destruct (select_order_by_key (get_connection db) (request_key env header order_request)).
  { left. split; [reflexivity | intros placed H; discriminate H]. }
  destruct (reserve_items env (request_key env header order_request) (new_order_id env)
              (items order_request) [] [] 0%float [])
    as [[reservations order_items total_amount | [status_code detail | e] reservations] log]
    eqn:Hloop.
  - apply reserve_items_reserved in Hloop. destruct Hloop as (-> & -> & -> & ->).
    cbn [app].
    destruct (process_payment env _) as [[|] payment_id | e] eqn:Hpay.
    + pose proof (create_order_spec env (get_connection db)
                    (confirmed_order env header order_request)
                    (lines_of (items order_request))) as Hcommit.
      unfold confirmed_order in Hcommit at 1.
      destruct (create_order env (get_connection db) _ (lines_of (items order_request)))
        as [conn' | [e conn']].
      * right. split; [exact Hcommit|]. split; [exists payment_id; first [exact Hpay | reflexivity]|].
        eexists. split; [reflexivity|]. repeat split; reflexivity.
      * left. split; [exact Hcommit | intros placed H; discriminate H].
    + left. split; [reflexivity | intros placed H; discriminate H].
    + left. split; [reflexivity | intros placed H; discriminate H].
  - left. split; [reflexivity | intros placed H; discriminate H].
  - left. split; [reflexivity | intros placed H; discriminate H].
Qed.

(** ** Totals *)

(** C5. For every order PlaceOrder places, the amounts stored with it
    satisfy: subtotal = the sum over its stored lines of unit price times
    quantity, tax = subtotal * 0.05, shipping = 10.00 and total = subtotal +
    tax + shipping. For the items {qty 2} and {qty 1} at 29.99 the stored
    amounts are subtotal 89.97, tax 4.4985, shipping 10.00, total 104.4685. *)
Theorem stored_totals :
  (forall env header order_request db placed log db',
      place_order env header order_request db = (Returns (order_placed placed), log, db') ->
      exists row,
        db' = {| Orders := Orders db ++ [row];
                 Order_Items := Order_Items db
                                  ++ rows_of (order_id row) (items order_request) |}
        /\ subtotal row = sum_rows (rows_of (order_id row) (items order_request))
        /\ tax_amount row = (subtotal row * 0.05)%float
        /\ shipping_amount row = 10.00%float
        /\ order_total row = (subtotal row + tax_amount row + shipping_amount row)%float
        /\ placed_subtotal placed = subtotal row
        /\ placed_tax_amount placed = tax_amount row
        /\ placed_shipping_amount placed = shipping_amount row
        /\ placed_order_total placed = order_total row)
  /\ (exists row,
        tables_after (place_order all_granted None (request "key-5" two_items) empty_db)
        = {| Orders := [row]; Order_Items := rows_of (order_id row) two_items |}
        /\ subtotal row = 89.97%float
        /\ tax_amount row = 4.4985%float
        /\ shipping_amount row = 10.00%float
        /\ order_total row = 104.4685%float).
Proof.
  split.
  - intros env header order_request db placed log db' Hrun.
    destruct (place_order_with_cases mock_payment env header order_request db)
      as [[_ Hnot] | (Hnew & _ & placed' & Hout & _ & _ & _ & Hs & Ht & Hsh & Htot & _)];
      fold place_order in *; rewrite Hrun in *.
    + now destruct (Hnot placed).
    + injection Hout as <-.
      exists (confirmed_order env header order_request).
      split; [exact Hnew|]. split; [symmetry; apply sum_rows_of|].
      repeat split; assumption || reflexivity.
  - exists (confirmed_order all_granted None (request "key-5" two_items)).
    split; [reflexivity|]. repeat split; vm_compute; reflexivity.
Qed.

(** The arithmetic example, read off a run through the general statement. *)
Lemma stored_totals_witness :
  exists row,
    tables_after (place_order all_granted None (request "key-5" two_items) empty_db)
    = {| Orders := [row]; Order_Items := rows_of (order_id row) two_items |}
    /\ subtotal row = sum_rows (rows_of (order_id row) two_items)
    /\ order_total row = (subtotal row + tax_amount row + shipping_amount row)%float.
Proof.
  destruct (proj1 stored_totals all_granted None (request "key-5" two_items) empty_db
              _ _ _ eq_refl)
    as (row & Hdb & Hsub & _ & _ & Htot & _).
  exists row. split; [exact Hdb|]. split; [exact Hsub | exact Htot].
Defined.

(** ** The totals signature *)

Lemma cancel_order_tables (env : Env) (id : Z) (db : Database) :
  tables_after (cancel_order env id db) = db
  \/ tables_after (cancel_order env id db) = with_cancelled id db.
Proof.
  unfold cancel_order.
  destruct (select_order_by_id (get_connection db) id) as [order|]; [|now left].
  destruct (existsb (String.eqb (order_status order)) not_cancellable); [now left|].
  destruct (store_error env 0); [now left|].
  destruct (store_error env 1); [now left | now right].
Qed.

Lemma set_status_amounts (status : string) (id : Z) (row : OrderRow) :
  totals_signature (set_status status id row) = totals_signature row
  /\ shipping_amount (set_status status id row) = shipping_amount row
  /\ subtotal (set_status status id row) = subtotal row
  /\ tax_amount (set_status status id row) = tax_amount row
  /\ order_total (set_status status id row) = order_total row.
Proof.
  unfold set_status. destruct (order_id row =? id); repeat split.
Qed.

(** Every order of the tables after a run of [place_order] is an order of
    the tables before, or the order the run has committed. *)
Lemma orders_after_place_order (env : Env) (header : option string)
    (order_request : PlaceOrderRequest) (db : Database) (row : OrderRow) :
  In row (Orders (tables_after (place_order env header order_request db))) ->
  In row (Orders db) \/ row = confirmed_order env header order_request.
Proof.
  destruct (place_order_with_cases mock_payment env header order_request db)
    as [[Hsame _] | (Hnew & _)]; fold place_order in *.
  - rewrite Hsame. now left.
  - rewrite Hnew. simpl. intros Hin. apply in_app_or in Hin.
    destruct Hin as [Hold | [<- | []]]; [now left | now right].
Qed.

(** C6. The signature stored with an order is the digest of the JSON text
    of exactly its four stored amounts, listed by sorted key: shipping,
    subtotal, tax, total. When that holds of every order of the tables, it
    holds of every order of the tables after PlaceOrder and after
    CancelOrder, and the stored signature is the one recomputed from the
    four stored amounts; and the order PlaceOrder places is stored with the
    digest of the text of the four amounts it returns. *)
Theorem signature_recomputes_from_stored_amounts :
  forall db,
    (forall row, In row (Orders db) ->
       hashed (totals_signature row)
       = {| members := [("shipping", shipping_amount row);
                        ("subtotal", subtotal row);
                        ("tax", tax_amount row);
                        ("total", order_total row)] |}) ->
    (forall env header order_request row,
        In row (Orders (tables_after (place_order env header order_request db))) ->
        hashed (totals_signature row)
        = {| members := [("shipping", shipping_amount row);
                         ("subtotal", subtotal row);
                         ("tax", tax_amount row);
                         ("total", order_total row)] |}
        /\ totals_signature row
           = sha256_hexdigest
               (json_dumps [("subtotal", subtotal row);
                            ("tax", tax_amount row);
                            ("shipping", shipping_amount row);
                            ("total", order_total row)] true))
    /\ (forall env id row,
          In row (Orders (tables_after (cancel_order env id db))) ->
          hashed (totals_signature row)
          = {| members := [("shipping", shipping_amount row);
                           ("subtotal", subtotal row);
                           ("tax", tax_amount row);
                           ("total", order_total row)] |}
          /\ totals_signature row
             = sha256_hexdigest
                 (json_dumps [("subtotal", subtotal row);
                              ("tax", tax_amount row);
                              ("shipping", shipping_amount row);
                              ("total", order_total row)] true))
    /\ (forall env header order_request placed log db',
          place_order env header order_request db
          = (Returns (order_placed placed), log, db') ->
          exists row,
            Orders db' = (Orders db ++ [row])%list
            /\ order_id row = placed_order_id placed
            /\ hashed (totals_signature row)
               = {| members := [("shipping", placed_shipping_amount placed);
                                ("subtotal", placed_subtotal placed);
                                ("tax", placed_tax_amount placed);
                                ("total", placed_order_total placed)] |}).
Proof.
  intros db Hdb.
  assert (Hrecompute : forall row,
             hashed (totals_signature row)
             = {| members := [("shipping", shipping_amount row);
                              ("subtotal", subtotal row);
                              ("tax", tax_amount row);
                              ("total", order_total row)] |} ->
             totals_signature row
             = sha256_hexdigest
                 (json_dumps [("subtotal", subtotal row);
                              ("tax", tax_amount row);
                              ("shipping", shipping_amount row);
                              ("total", order_total row)] true)).
  { intros row Hrow. destruct (totals_signature row) as [text]. simpl in Hrow.
    now subst text. }
  split; [|split].
  - intros env header order_request row Hin.
    assert (Hrow : hashed (totals_signature row)
                   = {| members := [("shipping", shipping_amount row);
                                    ("subtotal", subtotal row);
                                    ("tax", tax_amount row);
                                    ("total", order_total row)] |}).
    { apply orders_after_place_order in Hin.
      destruct Hin as [Hold | ->]; [now apply Hdb | reflexivity]. }
    split; [exact Hrow | now apply Hrecompute].
  - intros env id row Hin.
    assert (Hrow : hashed (totals_signature row)
                   = {| members := [("shipping", shipping_amount row);
                                    ("subtotal", subtotal row);
                                    ("tax", tax_amount row);
                                    ("total", order_total row)] |}).
    { destruct (cancel_order_tables env id db) as [Hsame | Hcancelled];
        rewrite ?Hsame, ?Hcancelled in Hin; [now apply Hdb|].
      simpl in Hin. apply in_map_iff in Hin. destruct Hin as (old & <- & Hold).
      destruct (set_status_amounts "CANCELLED" id old) as (-> & -> & -> & -> & ->).
      now apply Hdb. }
    split; [exact Hrow | now apply Hrecompute].
  - intros env header order_request placed log db' Hrun.
    destruct (place_order_with_cases mock_payment env header order_request db)
      as [[_ Hnot] | (Hnew & _ & placed' & Hout & Hid & _ & _ & Hs & Ht & Hsh & Htot & _)];
      fold place_order in *; rewrite Hrun in *.
    + now destruct (Hnot placed).
    + injection Hout as <-. exists (confirmed_order env header order_request).
      cbn [tables_after snd] in Hnew. rewrite Hnew.
      split; [reflexivity|]. split; [now rewrite Hid|].
      now rewrite Hs, Ht, Hsh, Htot.
Qed.

(** The order placed for items of quantity 2 and 1 is stored with the
    digest of the text of shipping 10.0, subtotal 89.97, tax 4.4985 and
    total 104.4685; and a stored order keeps its signature when cancelled. *)
Lemma signature_recomputes_from_stored_amounts_witness :
  (exists row,
      Orders (tables_after (place_order all_granted None (request "key-6" two_items)
                                        empty_db))
      = [row]
      /\ hashed (totals_signature row)
         = {| members := [("shipping", 10.0%float);
                          ("subtotal", 89.97%float);
                          ("tax", 4.4985%float);
                          ("total", 104.4685%float)] |})
  /\ (forall row,
        In row (Orders (tables_after
                          (cancel_order all_granted 1001
                             (db_with (stored_order 1001 "CONFIRMED" (Some "key-1")))))) ->
        hashed (totals_signature row)
        = {| members := [("shipping", shipping_amount row);
                         ("subtotal", subtotal row);
                         ("tax", tax_amount row);
                         ("total", order_total row)] |}).
Proof.
  assert (Hempty : forall row, In row (Orders empty_db) ->
             hashed (totals_signature row)
             = {| members := [("shipping", shipping_amount row);
                              ("subtotal", subtotal row);
                              ("tax", tax_amount row);
                              ("total", order_total row)] |})
    by (intros row []).
  assert (Hstored : forall row,
             In row (Orders (db_with (stored_order 1001 "CONFIRMED" (Some "key-1")))) ->
             hashed (totals_signature row)
             = {| members := [("shipping", shipping_amount row);
                              ("subtotal", subtotal row);
                              ("tax", tax_amount row);
                              ("total", order_total row)] |})
    by (intros row [<- | []]; reflexivity).
  split.
  - destruct (proj2 (proj2 (signature_recomputes_from_stored_amounts empty_db Hempty))
                all_granted None (request "key-6" two_items) _ _ _ eq_refl)
      as (row & Horders & _ & Hsigned).
    exists row. split; [exact Horders|].
    rewrite Hsigned. vm_compute. reflexivity.
  - intros row Hin.
    apply (proj1 (proj2 (signature_recomputes_from_stored_amounts
                           (db_with (stored_order 1001 "CONFIRMED" (Some "key-1")))
                           Hstored))
             all_granted 1001 row Hin).
Defined.

(** ** After the reservations *)

Lemma filter_none {A} (f : A -> bool) (l : list A) :
  Forall (fun x => f x = false) l -> filter f l = [].
Proof.
  induction 1 as [|x l Hx _ IH]; simpl; [reflexivity|]. now rewrite Hx.
Qed.

Lemma send_notification_log (env : Env) (customer id : Z) (log : list Call) :
  exists data,
    send_notification env customer id log = (log ++ [notification_call data])%list.
Proof.
  unfold send_notification, post. eexists.
  destruct (respond env (List.length log) _); reflexivity.
Qed.

Lemma create_shipment_log (env : Env) (customer id : Z) (order_items : list OrderLine)
    (log : list Call) :
  create_shipment env customer id order_items log
  = (log ++ [shipment_call (shipment_data id customer order_items)])%list.
Proof.
  unfold create_shipment, post.
  destruct (respond env (List.length log) _); reflexivity.
Qed.

(** No call of the reservation loop goes to the payment service. *)
Lemma reserve_items_no_charge (env : Env) (key : string) (id : Z) (items : list OrderItem) :
  forall reservations order_items total_amount log,
    Forall (fun call => is_charge call = false) log ->
    Forall (fun call => is_charge call = false)
           (snd (reserve_items env key id items reservations order_items total_amount log)).
Proof.
  induction items as [|it rest IH]; intros reservations order_items total_amount log Hlog;
    [exact Hlog|].
  assert (Hcall : Forall (fun call => is_charge call = false)
                         (log ++ [reserve_call_of key id it])).
  { apply Forall_app. split; [exact Hlog | now constructor]. }
  cbn [reserve_items]. unfold post.
  destruct (respond env (List.length log) (reserve_call_of key id it))
    as [status_code text [e|]|e].
  - destruct (status_code =? 200);
      cbn [snd]; rewrite release_all_log; (apply Forall_app; split; [exact Hcall|]);
      rewrite Forall_map; now apply Forall_forall.
  - destruct (status_code =? 200).
    + destruct (float_of_int (quantity it)); [now apply IH | exact Hcall].
    + cbn [snd]. rewrite release_all_log. apply Forall_app. split; [exact Hcall|].
      rewrite Forall_map. now apply Forall_forall.
  - cbn [snd]. rewrite release_all_log. apply Forall_app. split; [exact Hcall|].
    rewrite Forall_map. now apply Forall_forall.
Qed.

Lemma place_order_with_no_charge (process_payment : Env -> PaymentData -> PaymentStep)
    (env : Env) (header : option string) (order_request : PlaceOrderRequest)
    (db : Database) :
  Forall (fun call => is_charge call = false)
         (calls_of (place_order_with process_payment env header order_request db)).
Proof.
  unfold place_order_with.
  destruct (select_order_by_key (get_connection db) _); [constructor|].
  pose proof (reserve_items_no_charge env (request_key env header order_request)
                (new_order_id env) (items order_request) [] [] 0%float [] (Forall_nil _))
    as Hloop.
  destruct (reserve_items env _ _ (items order_request) [] [] 0%float [])
    as [[reservations order_items total_amount | [status_code detail | e] reservations] log];
    cbn [snd] in Hloop.
  - assert (Hrelease : Forall (fun call => is_charge call = false)
                              (release_all env reservations log)).
    { rewrite release_all_log. apply Forall_app. split; [exact Hloop|].
      rewrite Forall_map. now apply Forall_forall. }
    destruct (process_payment env _) as [[|] payment_id | e]; try exact Hrelease.
    destruct (create_order env (get_connection db) _ order_items) as [conn | [e conn]];
      [|exact Hrelease].
    unfold calls_of. cbn [fst snd]. rewrite create_shipment_log.
    destruct (send_notification_log env (customer_id order_request) (new_order_id env) log)
      as [data ->].
    repeat (apply Forall_app; split); try exact Hloop; now constructor.
  - exact Hloop.
  - unfold order_processing_failed, calls_of. cbn [fst snd].
    rewrite release_all_log. apply Forall_app. split; [exact Hloop|].
    rewrite Forall_map. now apply Forall_forall.
Qed.

(** A store that accepts every write commits the order. *)
Lemma create_order_accepted (env : Env) (conn : Connection) (row : OrderRow)
    (order_items : list OrderLine) :
  (forall n, store_error env n = None) ->
  exists conn', create_order env conn row order_items = inl conn'.
Proof.
  intros Hok. unfold create_order. rewrite Hok.
  assert (Hitems : forall n c, exists c',
             insert_order_items env (order_id row) n order_items c = inl c').
  { induction order_items as [|line rest IH]; intros n c; simpl; [eauto|].
    rewrite Hok. apply IH. }
  destruct (Hitems 1%nat (insert_order conn row)) as [c' ->].
  rewrite Hok. eauto.
Qed.

(** When the reservation phase completes and the store accepts the writes,
    the stubbed payment lets the order through: it is committed with its
    lines, returned as CONFIRMED and PAID, and the two dispatch calls follow
    the Reserve calls. *)
Lemma place_order_succeeds (env : Env) (header : option string)
    (order_request : PlaceOrderRequest) (db : Database)
    (reservations : list Reservation) (order_items : list OrderLine)
    (total_amount : float) (log : list Call) :
  select_order_by_key (get_connection db) (request_key env header order_request) = None ->
  reserve_items env (request_key env header order_request) (new_order_id env)
                (items order_request) [] [] 0%float []
  = (Reserved reservations order_items total_amount, log) ->
  (forall n, store_error env n = None) ->
  exists placed,
    place_order env header order_request db
    = (Returns (order_placed placed),
       (map (reserve_call_of (request_key env header order_request) (new_order_id env))
            (items order_request)
          ++ dispatch_calls env order_request)%list,
       with_order env header order_request db)
    /\ placed_order_status placed = "CONFIRMED"
    /\ placed_payment_status placed = "PAID"
    /\ placed_subtotal placed = sum_items (items order_request) 0%float
    /\ placed_order_total placed
       = (sum_items (items order_request) 0 + sum_items (items order_request) 0 * TAX_RATE
          + SHIPPING_COST)%float
    /\ placed_items placed = lines_of (items order_request).
Proof.
  intros Hnew Hloop Hok.
  unfold place_order, place_order_with. rewrite Hnew, Hloop.
  apply reserve_items_reserved in Hloop. destruct Hloop as (-> & -> & -> & ->).
  cbn [app mock_payment].
  pose proof (create_order_spec env (get_connection db)
                (confirmed_order env header order_request)
                (lines_of (items order_request))) as Hcommit.
  unfold confirmed_order in Hcommit at 1.
  destruct (create_order_accepted env (get_connection db)
              (confirmed_order env header order_request)
              (lines_of (items order_request)) Hok) as [conn' Hcreate].
  unfold confirmed_order in Hcreate at 1.
  rewrite Hcreate in Hcommit |- *.
  rewrite create_shipment_log. unfold send_notification, post.
  eexists. split.
  - destruct (respond env _ _); rewrite Hcommit, <- app_assoc; reflexivity.
  - repeat split.
Qed.

(** A write of Step 4 raises only what the store raises. *)
Lemma insert_order_items_raised (env : Env) (id : Z) (order_items : list OrderLine) :
  forall n conn e conn',
    insert_order_items env id n order_items conn = inr (e, conn') ->
    exists fault, store_error env fault = Some e.
Proof.
  induction order_items as [|line rest IH]; intros n conn e conn' H; simpl in H;
    [discriminate|].
  destruct (store_error env n) as [e'|] eqn:Hn.
  - injection H as <- _. now exists n.
  - now apply IH in H.
Qed.

Lemma create_order_raised (env : Env) (conn : Connection) (row : OrderRow)
    (order_items : list OrderLine) (e : string) (conn' : Connection) :
  create_order env conn row order_items = inr (e, conn') ->
  exists fault, store_error env fault = Some e.
Proof.
  unfold create_order. intros H.
  destruct (store_error env 0) as [e0|] eqn:H0.
  { injection H as <- _. now exists 0%nat. }
  destruct (insert_order_items env (order_id row) 1 order_items (insert_order conn row))
    as [conn1 | [e1 conn1]] eqn:Hitems.
  - destruct (store_error env (S (List.length order_items))) as [e2|] eqn:H2;
      [|discriminate].
    injection H as <- _. now exists (S (List.length order_items)).
  - injection H as <- _. now apply insert_order_items_raised in Hitems.
Qed.

Lemma no_release_among_reserves (key : string) (id : Z) (items : list OrderItem) :
  filter is_release (map (reserve_call_of key id) items) = [].
Proof.
  induction items as [|it rest IH]; [reflexivity | exact IH].
Qed.

(** Once the reservation phase has completed and the payment step has
    approved, a run ends in one of two ways: the order is committed, or a
    write of the store raised and everything is released. *)
Lemma place_order_with_after_reservations
    (process_payment : Env -> PaymentData -> PaymentStep)
    (env : Env) (header : option string) (order_request : PlaceOrderRequest)
    (db : Database) (reservations : list Reservation) (order_items : list OrderLine)
    (total_amount : float) (log : list Call) (payment_id : option string) :
  let key := request_key env header order_request in
  let id := new_order_id env in
  let run := place_order_with process_payment env header order_request db in
  select_order_by_key (get_connection db) key = None ->
  reserve_items env key id (items order_request) [] [] 0%float []
  = (Reserved reservations order_items total_amount, log) ->
  process_payment env (payment_data_of env header order_request total_amount)
  = Settled true payment_id ->
  (exists placed conn',
      create_order env (get_connection db) (confirmed_order env header order_request)
                   (lines_of (items order_request)) = inl conn'
      /\ run = (Returns (order_placed placed),
                (map (reserve_call_of key id) (items order_request)
                   ++ dispatch_calls env order_request)%list,
                with_order env header order_request db)
      /\ placed_order_id placed = id
      /\ placed_order_status placed = "CONFIRMED"
      /\ placed_payment_status placed = "PAID")
  \/ (exists e conn',
        create_order env (get_connection db) (confirmed_order env header order_request)
                     (lines_of (items order_request)) = inr (e, conn')
        /\ run = (Raises (HTTPException 500 ("Order processing failed: " ++ e)),
                  (map (reserve_call_of key id) (items order_request)
                     ++ map release_call
                          (map (reservation_of key id) (items order_request)))%list,
                  db)).
Proof.
  intros key id run Hnew Hloop Hpay. subst run.
  unfold place_order_with. fold key id. rewrite Hnew, Hloop.
  apply reserve_items_reserved in Hloop. destruct Hloop as (-> & -> & -> & ->).
  cbn [app] in *. unfold payment_data_of in Hpay. fold key id in Hpay. rewrite Hpay.
  pose proof (create_order_spec env (get_connection db)
                (confirmed_order env header order_request)
                (lines_of (items order_request))) as Hcommit.
  unfold confirmed_order in Hcommit at 1. unfold confirmed_order at 1 2.
  fold key id in Hcommit |- *.
  destruct (create_order env (get_connection db) _ (lines_of (items order_request)))
    as [conn' | [e conn']].
  - left. eexists. exists conn'. split; [reflexivity|]. split.
    + rewrite create_shipment_log. unfold send_notification, post.
      destruct (respond env _ _); rewrite Hcommit, <- app_assoc; reflexivity.
    + repeat split.
  - right. exists e, conn'. split; [reflexivity|].
    unfold order_processing_failed. rewrite release_all_log.
    cbn [rollback durable]. now rewrite Hcommit.
Qed.

(** ** Payment failure rollback *)

(** C3, as the code has it. No run of PlaceOrder fails with 402: Step 3 is a
    stub that approves every request without asking the payment service, so
    the release-and-402 path of lines 237-249 is never taken. Once the
    reservation phase has completed, a run ends in one of two ways, whatever
    the payment service would answer. Either the order is committed with its
    lines as CONFIRMED and PAID, the two dispatch calls follow the Reserve
    calls and nothing is released; or a write of the store raised, and then
    every reservation is released, one Release per item in order, the request
    fails with 500 and the tables are unchanged. *)
Theorem no_run_fails_with_payment_declined :
  forall env header order_request db,
    let key := request_key env header order_request in
    let id := new_order_id env in
    let run := place_order env header order_request db in
    let reserve := fun it : OrderItem =>
      {| url := "http://inventoryservice:3000/v1/inventory/reserve";
         json := reservation_data (product_id it) (quantity it)
                                  (key ++ "_" ++ str (product_id it)) (str id);
         timeout := 10 |} in
    let release := fun it : OrderItem =>
      {| url := "http://inventoryservice:3000/v1/inventory/release";
         json := release_data {| reservation_key := key ++ "_" ++ str (product_id it);
                                 reservation_order := str id |};
         timeout := 5 |} in
    (forall detail, outcome_of run <> Raises (HTTPException 402 detail))
    /\ (forall reservations order_items total_amount log,
          select_order_by_key (get_connection db) key = None ->
          reserve_items env key id (items order_request) [] [] 0%float []
          = (Reserved reservations order_items total_amount, log) ->
          (exists placed,
              run = (Returns (order_placed placed),
                     (map reserve (items order_request)
                        ++ dispatch_calls env order_request)%list,
                     with_order env header order_request db)
              /\ placed_order_status placed = "CONFIRMED"
              /\ placed_payment_status placed = "PAID"
              /\ filter is_release (calls_of run) = [])
          \/ (exists e fault,
                store_error env fault = Some e
                /\ run = (Raises (HTTPException 500 ("Order processing failed: " ++ e)),
                          (map reserve (items order_request)
                             ++ map release (items order_request))%list,
                          db))).
Proof.
  intros env header order_request db key id run reserve release. split.
  - intros detail. subst run. unfold place_order, place_order_with. fold key id.
    destruct (select_order_by_key (get_connection db) key); [discriminate|].
    destruct (reserve_items env key id (items order_request) [] [] 0%float [])
      as [[reservations order_items total_amount | [status_code text | e] reservations] log]
      eqn:Hloop.
    + cbn [mock_payment].
      destruct (create_order env (get_connection db) _ order_items) as [conn | [e conn]];
        discriminate.
    + apply reserve_items_failure_status in Hloop.
      intros H. injection H as -> _. now destruct Hloop.
    + discriminate.
  - intros reservations order_items total_amount log Hnew Hloop.
    destruct (place_order_with_after_reservations mock_payment env header order_request db
                reservations order_items total_amount log _ Hnew Hloop eq_refl)
      as [(placed & conn' & _ & Hrun & _ & Hstatus & Hpaid) | (e & conn' & Hraised & Hrun)];
      fold place_order key id run in Hrun.
    + left. exists placed. split; [exact Hrun|]. split; [exact Hstatus|].
      split; [exact Hpaid|]. rewrite Hrun. unfold calls_of. cbn [fst snd].
      rewrite filter_app, no_release_among_reserves. reflexivity.
    + right. apply create_order_raised in Hraised. destruct Hraised as [fault Hfault].
      exists e, fault. split; [exact Hfault|]. rewrite Hrun. now rewrite map_map.
Qed.

(** The payment service declines whatever it is asked: the order of two
    items is placed all the same. *)
Lemma no_run_fails_with_payment_declined_witness :
  exists placed,
    place_order payment_declines None (request "key-3" two_items) empty_db
    = (Returns (order_placed placed),
       ([{| url := "http://inventoryservice:3000/v1/inventory/reserve";
            json := reservation_data 1 2 "key-3_1" "1340435346";
            timeout := 10 |};
         {| url := "http://inventoryservice:3000/v1/inventory/reserve";
            json := reservation_data 2 1 "key-3_2" "1340435346";
            timeout := 10 |}]
          ++ dispatch_calls payment_declines (request "key-3" two_items))%list,
       with_order payment_declines None (request "key-3" two_items) empty_db)
    /\ placed_payment_status placed = "PAID".
Proof.
  destruct (proj2 (no_run_fails_with_payment_declined
                     payment_declines None (request "key-3" two_items) empty_db)
              _ _ _ _ eq_refl eq_refl)
    as [(placed & Hrun & _ & Hpaid & _) | (e & fault & Hfault & _)].
  - exists placed. split; [exact Hrun | exact Hpaid].
  - discriminate Hfault.
Defined.

(** C3, as stated, fails: the payment service declines whatever it is
    asked, so no payment is approved by it, and a request of two items is
    answered with a placed order all the same: the order is stored as
    CONFIRMED and PAID with its two lines, no Release call is posted and the
    request does not fail with 402. *)
Lemma order_is_placed_though_payment_service_declines :
  (forall k call, is_charge call = true ->
     respond payment_declines k call = Response 402 "Payment declined" not_json)
  /\ (exists placed,
        outcome_of (place_order payment_declines None (request "key-3" two_items) empty_db)
        = Returns (order_placed placed)
        /\ placed_order_status placed = "CONFIRMED"
        /\ placed_payment_status placed = "PAID")
  /\ List.length
       (Orders (tables_after
                  (place_order payment_declines None (request "key-3" two_items) empty_db)))
     = 1%nat
  /\ List.length
       (Order_Items (tables_after
                       (place_order payment_declines None (request "key-3" two_items)
                                    empty_db)))
     = 2%nat
  /\ filter is_release
       (calls_of (place_order payment_declines None (request "key-3" two_items) empty_db))
     = [].
Proof.
  split.
  { intros k call Hcharge. cbn [payment_declines respond]. now rewrite Hcharge. }
  split; [eexists; split; [vm_compute; reflexivity | split; reflexivity]|].
  split; [reflexivity|]. split; reflexivity.
Qed.

(** ** The commit *)

(** C4. A run of PlaceOrder either leaves the tables as they were, or adds
    to them, in one commit, exactly one order together with one line for
    each item of the request; the latter only when the payment step approved,
    and the order added is CONFIRMED and PAID. So every order PlaceOrder
    makes visible is CONFIRMED and PAID, never PENDING. And the order is
    persisted: under a new key, when every Reserve call is granted, the
    payment step approves and the store accepts the writes, the run answers
    with the placed order and the tables hold the order and all its lines. *)
Theorem order_committed_whole_confirmed_and_paid :
  forall process_payment env header order_request db,
    let key := request_key env header order_request in
    let id := new_order_id env in
    let run := place_order_with process_payment env header order_request db in
    let lines :=
      map (fun it : OrderItem =>
             {| item_order_id := id;
                item_product_id := product_id it;
                item_sku := sku it;
                item_quantity := quantity it;
                item_unit_price := 29.99%float |})
          (items order_request) in
    (tables_after run = db
     \/ exists row payment_id,
          tables_after run
          = {| Orders := Orders db ++ [row]; Order_Items := Order_Items db ++ lines |}
          /\ order_id row = id
          /\ order_status row = "CONFIRMED"
          /\ payment_status row = "PAID"
          /\ process_payment env
               (payment_data_of env header order_request
                  (sum_items (items order_request) 0%float))
             = Settled true payment_id)
    /\ (forall row, In row (Orders (tables_after run)) ->
          In row (Orders db)
          \/ (order_status row = "CONFIRMED" /\ payment_status row = "PAID"))
    /\ (select_order_by_key (get_connection db) key = None ->
        (forall i it, nth_error (items order_request) i = Some it ->
           (exists text, respond env i (reserve_call_of key id it) = Response 200 text None)
           /\ float_of_int (quantity it) <> None) ->
        (exists payment_id,
            process_payment env
              (payment_data_of env header order_request
                 (sum_items (items order_request) 0%float))
            = Settled true payment_id) ->
        (forall n, store_error env n = None) ->
        exists row placed,
          outcome_of run = Returns (order_placed placed)
          /\ placed_order_id placed = id
          /\ placed_order_status placed = "CONFIRMED"
          /\ placed_payment_status placed = "PAID"
          /\ tables_after run
             = {| Orders := Orders db ++ [row]; Order_Items := Order_Items db ++ lines |}
          /\ order_id row = id
          /\ order_customer_id row = customer_id order_request
          /\ order_idempotency_key row = Some key
          /\ order_status row = "CONFIRMED"
          /\ payment_status row = "PAID").
Proof.
  intros process_payment env header order_request db key id run lines.
  assert (Hlines : rows_of id (items order_request) = lines).
  { unfold rows_of, lines_of. now rewrite map_map. }
  split; [|split].
  - destruct (place_order_with_cases process_payment env header order_request db)
      as [[Hsame _] | (Hnew & [payment_id Hpay] & _)]; fold run in Hsame || fold run in Hnew.
    + now left.
    + right. exists (confirmed_order env header order_request), payment_id.
      split; [rewrite Hnew; unfold with_order; fold id; now rewrite Hlines|].
      split; [reflexivity|]. split; [reflexivity|]. split; [reflexivity | exact Hpay].
  - destruct (place_order_with_cases process_payment env header order_request db)
      as [[Hsame _] | (Hnew & _)]; fold run in Hsame || fold run in Hnew.
    + intros row Hin. rewrite Hsame in Hin. now left.
    + intros row Hin. rewrite Hnew in Hin. simpl in Hin.
      apply in_app_or in Hin. destruct Hin as [Hold | [<- | []]]; [now left|].
      right. split; reflexivity.
  - intros Hnew Hgranted [payment_id Hpay] Hok.
    assert (Hloop : reserve_items env key id (items order_request) [] [] 0%float []
                    = (Reserved (map (reservation_of key id) (items order_request))
                                (lines_of (items order_request))
                                (sum_items (items order_request) 0%float),
                       map (reserve_call_of key id) (items order_request))).
    { apply reserve_items_all_granted. intros i it Hi.
      destruct (Hgranted i it Hi) as [[text Hreply] Hfits].
      split; [now rewrite Hreply | exact Hfits]. }
    destruct (place_order_with_after_reservations process_payment env header order_request
                db _ _ _ _ payment_id Hnew Hloop Hpay)
      as [(placed & conn' & _ & Hrun & Hid & Hstatus & Hpaid)
         | (e & conn' & Hraised & _)].
    + fold run in Hrun. exists (confirmed_order env header order_request), placed.
      rewrite Hrun. split; [reflexivity|]. split; [exact Hid|].
      split; [exact Hstatus|]. split; [exact Hpaid|].
      split; [cbn [tables_after snd]; unfold with_order; fold id; now rewrite Hlines|].
      repeat split.
    + destruct (create_order_accepted env (get_connection db)
                  (confirmed_order env header order_request)
                  (lines_of (items order_request)) Hok) as [conn'' Hcreate].
      rewrite Hcreate in Hraised. discriminate Hraised.
Qed.

(** Two items under a new key, every call granted and every write
    accepted: the tables hold the order and its two lines. *)
Lemma order_committed_whole_confirmed_and_paid_witness :
  exists row,
    tables_after (place_order all_granted None (request "key-4" two_items) empty_db)
    = {| Orders := [row];
         Order_Items := [{| item_order_id := 1340435346;
                            item_product_id := 1;
                            item_sku := "LAPTOP001";
                            item_quantity := 2;
                            item_unit_price := 29.99%float |};
                         {| item_order_id := 1340435346;
                            item_product_id := 2;
                            item_sku := "MOUSE001";
                            item_quantity := 1;
                            item_unit_price := 29.99%float |}] |}
    /\ order_id row = 1340435346
    /\ order_status row = "CONFIRMED"
    /\ payment_status row = "PAID".
Proof.
  destruct (proj2 (proj2 (order_committed_whole_confirmed_and_paid
                            mock_payment all_granted None (request "key-4" two_items)
                            empty_db)) eq_refl)
    as (row & placed & _ & _ & _ & _ & Htables & Hid & _ & _ & Hstatus & Hpaid).
  - intros [|[|[|i]]] it Hi; simpl in Hi; try discriminate;
      injection Hi as <-; (split; [now exists "{}" | vm_compute; discriminate]).
  - eexists. reflexivity.
  - intros n. reflexivity.
  - exists row. split; [exact Htables|]. split; [exact Hid|].
    split; [exact Hstatus | exact Hpaid].
Defined.

(** ** The payment step *)

(** C7, as the code has it. A run of PlaceOrder posts no call to the payment
    service. Step 3 builds one payment request, carrying the order id, the
    total amount, the customer id and the key "payment_" followed by the
    idempotency key of the order, and hands it to a stub that approves it
    without posting anything; so once the reservation phase has completed,
    the order is confirmed whenever the store accepts the writes. *)
Theorem payment_is_built_but_never_posted :
  forall env header order_request db,
    filter is_charge (calls_of (place_order env header order_request db)) = []
    /\ (forall total_amount,
          let payment_data := payment_data_of env header order_request total_amount in
          payment_order_id payment_data = new_order_id env
          /\ amount payment_data
             = (total_amount + total_amount * TAX_RATE + SHIPPING_COST)%float
          /\ payment_customer_id payment_data = customer_id order_request
          /\ payment_idempotency_key payment_data
             = "payment_" ++ request_key env header order_request
          /\ exists payment_id, mock_payment env payment_data = Settled true payment_id)
    /\ (forall reservations order_items total_amount log,
          select_order_by_key (get_connection db) (request_key env header order_request)
          = None ->
          reserve_items env (request_key env header order_request) (new_order_id env)
                        (items order_request) [] [] 0%float []
          = (Reserved reservations order_items total_amount, log) ->
          (forall n, store_error env n = None) ->
          exists placed,
            outcome_of (place_order env header order_request db)
            = Returns (order_placed placed)
            /\ placed_order_status placed = "CONFIRMED"
            /\ placed_payment_status placed = "PAID"
            /\ placed_order_total placed = amount (payment_data_of env header order_request
                                                     total_amount)).
Proof.
  intros env header order_request db. split; [|split].
  - apply filter_none. apply place_order_with_no_charge.
  - intros total_amount payment_data. subst payment_data.
    repeat split. eexists. reflexivity.
  - intros reservations order_items total_amount log Hnew Hloop Hok.
    destruct (place_order_succeeds env header order_request db _ _ _ _ Hnew Hloop Hok)
      as (placed & Hrun & Hstatus & Hpaid & _ & Htotal & _).
    exists placed. rewrite Hrun. split; [reflexivity|].
    split; [exact Hstatus|]. split; [exact Hpaid|].
    apply reserve_items_reserved in Hloop. destruct Hloop as (_ & _ & -> & _).
    exact Htotal.
Qed.

(** Two items are placed and confirmed with the Reserve and dispatch calls
    only. *)
Lemma payment_is_built_but_never_posted_witness :
  exists placed,
    outcome_of (place_order all_granted None (request "key-7" two_items) empty_db)
    = Returns (order_placed placed)
    /\ placed_order_status placed = "CONFIRMED"
    /\ placed_order_total placed = 104.4685%float.
Proof.
  destruct (proj2 (proj2 (payment_is_built_but_never_posted
                            all_granted None (request "key-7" two_items) empty_db))
              _ _ _ _ eq_refl eq_refl (fun n => eq_refl))
    as (placed & Hrun & Hstatus & _ & Htotal).
  exists placed. split; [exact Hrun|]. split; [exact Hstatus | exact Htotal].
Defined.

(** C7, as stated, fails: an order of two items is placed and confirmed, and
    the number of calls to the payment service is not one. *)
Lemma confirmed_order_without_charge_call :
  (exists placed,
      outcome_of (place_order all_granted None (request "key-7" two_items) empty_db)
      = Returns (order_placed placed)
      /\ placed_order_status placed = "CONFIRMED")
  /\ List.length
       (filter is_charge
          (calls_of (place_order all_granted None (request "key-7" two_items) empty_db)))
     <> 1%nat.
Proof.
  split.
  - eexists. split; [vm_compute; reflexivity | reflexivity].
  - vm_compute. discriminate.
Qed.

(** ** Requests that are not validated *)




(** ** The unit price *)

(** C10, as the code has it. Every line of a placed order, as returned and
    as stored, carries the unit price 29.99, whatever the product id and the
    sku of the item; and the subtotal is the sum of 29.99 times the quantity
    over the items of the request, accumulated in binary64 in the order of
    the items. *)
Theorem unit_price_is_the_mock_price :
  forall env header order_request db placed log db',
    place_order env header order_request db = (Returns (order_placed placed), log, db') ->
    placed_items placed
    = map (fun item => {| line_product_id := product_id item;
                          line_sku := sku item;
                          line_quantity := quantity item;
                          unit_price := 29.99%float |})
          (items order_request)
    /\ Forall (fun line => unit_price line = 29.99%float) (placed_items placed)
    /\ exists row,
         db' = {| Orders := Orders db ++ [row];
                  Order_Items := Order_Items db
                                   ++ map (item_row (order_id row)) (placed_items placed) |}
         /\ subtotal row
            = fold_left (fun total item => (total + 29.99 * to_float (quantity item))%float)
                        (items order_request) 0%float
         /\ placed_subtotal placed = subtotal row.
Proof.
  intros env header order_request db placed log db' Hrun.
  destruct (place_order_with_cases mock_payment env header order_request db)
    as [[_ Hnot] | (Hnew & _ & placed' & Hout & _ & _ & _ & Hs & _ & _ & _ & Hitems)];
    fold place_order in *; rewrite Hrun in *.
  - now destruct (Hnot placed).
  - injection Hout as <-. split; [exact Hitems|]. split.
    + rewrite Hitems. unfold lines_of. rewrite Forall_map. now apply Forall_forall.
    + exists (confirmed_order env header order_request).
      rewrite Hitems. split; [exact Hnew|]. split; [reflexivity | exact Hs].
Qed.

(** Quantities 4 and 9: both lines are priced 29.99. *)
Lemma unit_price_is_the_mock_price_witness :
  exists placed,
    outcome_of (place_order all_granted None
                            (request "key-10" [item 1 "LAPTOP001" 4; item 2 "MOUSE001" 9])
                            empty_db)
    = Returns (order_placed placed)
    /\ Forall (fun line => unit_price line = 29.99%float) (placed_items placed).
Proof.
  eexists. split; [vm_compute; reflexivity|].
  exact (proj1 (proj2 (unit_price_is_the_mock_price
                         all_granted None
                         (request "key-10" [item 1 "LAPTOP001" 4; item 2 "MOUSE001" 9])
                         empty_db _ _ _ eq_refl))).
Defined.

(** C10, as stated, fails: for quantities 4 and 9 the stored subtotal is
    389.86999999999995, and 29.99 times 13 is 389.87. *)
Lemma subtotal_differs_from_price_times_quantities :
  exists row,
    tables_after (place_order all_granted None
                              (request "key-10" [item 1 "LAPTOP001" 4; item 2 "MOUSE001" 9])
                              empty_db)
    = {| Orders := [row];
         Order_Items := rows_of (order_id row)
                                [item 1 "LAPTOP001" 4; item 2 "MOUSE001" 9] |}
    /\ subtotal row = 389.86999999999995%float
    /\ (29.99 * to_float (4 + 9))%float = 389.87%float
    /\ subtotal row <> (29.99 * to_float (4 + 9))%float.
Proof.
  exists (confirmed_order all_granted None
            (request "key-10" [item 1 "LAPTOP001" 4; item 2 "MOUSE001" 9])).
  split; [reflexivity|]. split; [vm_compute; reflexivity|].
  split; [vm_compute; reflexivity|]. vm_compute. discriminate.
Qed.

(** ** Cancel order *)

Lemma existsb_eqb_In (s : string) (l : list string) :
  existsb (String.eqb s) l = true <-> In s l.
Proof.
  rewrite existsb_exists. split.
  - intros (x & Hin & Heq). apply String.eqb_eq in Heq. now subst x.
  - intros Hin. exists s. split; [exact Hin | apply String.eqb_refl].
Qed.

Lemma set_status_order_id (status : string) (id : Z) (row : OrderRow) :
  order_id (set_status status id row) = order_id row.
Proof. unfold set_status. now destruct (order_id row =? id). Qed.

(** After the update, the order read under [id] is the one read before, with
    its new status. *)
Lemma select_updated (status : string) (id : Z) (rows : list OrderRow) (order : OrderRow) :
  find (fun row => order_id row =? id) rows = Some order ->
  find (fun row => order_id row =? id) (map (set_status status id) rows)
  = Some (set_status status id order)
  /\ order_status (set_status status id order) = status.
Proof.
  induction rows as [|row rest IH]; simpl; [discriminate|].
  rewrite set_status_order_id.
  destruct (order_id row =? id) eqn:Hid.
  - intros H. injection H as <-. split; [reflexivity|].
    unfold set_status. now rewrite Hid.
  - exact IH.
Qed.

(** C9, as the code has it. For a stored order, CancelOrder rejects with 400
    exactly when the status of the order is CANCELLED, SHIPPED or DELIVERED,
    posting nothing and leaving the tables unchanged. On every other status
    it posts one Release call for each line of the order, keyed by the key of
    the order and the product id of the line, whatever the answers to these
    calls; when the key of the order is absent or empty it posts none. It
    then sets the status of the order to CANCELLED, when the store accepts
    the update and the commit. *)
Theorem cancel_order_guard_and_releases :
  forall env id db order,
    select_order_by_id (get_connection db) id = Some order ->
    let run := cancel_order env id db in
    ((exists detail, outcome_of run = Raises (HTTPException 400 detail))
     <-> In (order_status order) not_cancellable)
    /\ (In (order_status order) not_cancellable ->
        run = (Raises (HTTPException 400
                         ("Cannot cancel order with status: " ++ order_status order)),
               [], db))
    /\ (~ In (order_status order) not_cancellable ->
        calls_of run
        = match nonempty (order_idempotency_key order) with
          | Some key =>
              map release_call
                  (map (fun line =>
                          {| reservation_key := key ++ "_" ++ str (item_product_id line);
                             reservation_order := str id |})
                       (select_items (get_connection db) id))
          | None => []
          end
        /\ (store_error env 0 = None ->
            store_error env 1 = None ->
            outcome_of run = Returns ("Order cancelled successfully", id)
            /\ tables_after run = with_cancelled id db
            /\ exists order',
                 select_order_by_id (get_connection (tables_after run)) id = Some order'
                 /\ order_status order' = "CANCELLED")).
Proof.
  intros env id db order Hfound run. subst run. unfold cancel_order. rewrite Hfound.
  destruct (existsb (String.eqb (order_status order)) not_cancellable) eqn:Hguard.
  - apply existsb_eqb_In in Hguard. split; [|split].
    + split; [intros _; exact Hguard | intros _; eexists; reflexivity].
    + intros _. reflexivity.
    + intros Hnot. now destruct (Hnot Hguard).
  - assert (Hout : ~ In (order_status order) not_cancellable).
    { intros Hin. apply existsb_eqb_In in Hin. congruence. }
    split; [|split].
    + split; [|intros Hin; now destruct (Hout Hin)].
      intros [detail H]. exfalso.
      destruct (store_error env 0); [discriminate H|].
      destruct (store_error env 1); discriminate H.
    + intros Hin. now destruct (Hout Hin).
    + intros _. split.
      * assert (Hcalls : forall (out : Outcome (string * Z)) (db' : Database),
                   calls_of (out, match nonempty (order_idempotency_key order) with
                                  | Some key =>
                                      release_all env
                                        (map (release_of_row key id)
                                             (select_items (get_connection db) id)) []
                                  | None => []
                                  end, db')
                   = match nonempty (order_idempotency_key order) with
                     | Some key =>
                         map release_call
                             (map (release_of_row key id)
                                  (select_items (get_connection db) id))
                     | None => []
                     end).
        { intros out db'. unfold calls_of. cbn [fst snd].
          destruct (nonempty (order_idempotency_key order)); [|reflexivity].
          now rewrite release_all_log. }
        destruct (store_error env 0); [apply (Hcalls (Raises _))|].
        destruct (store_error env 1); [apply (Hcalls (Raises _)) | apply (Hcalls (Returns _))].
      * intros -> ->. split; [reflexivity|]. split; [reflexivity|].
        unfold select_order_by_id in *. cbn [tables_after snd commit durable view
                                              update_order_status get_connection Orders].
        destruct (select_updated "CANCELLED" id (Orders db) order Hfound) as [Hsel Hst].
        eauto.
Qed.

(** A confirmed order of one line is cancelled with one Release call. *)
Lemma cancel_order_guard_and_releases_witness :
  calls_of (cancel_order all_granted 1001
              (db_with (stored_order 1001 "CONFIRMED" (Some "key-1"))))
  = [release_call {| reservation_key := "key-1_1"; reservation_order := "1001" |}]
  /\ tables_after (cancel_order all_granted 1001
                     (db_with (stored_order 1001 "CONFIRMED" (Some "key-1"))))
     = db_with (stored_order 1001 "CANCELLED" (Some "key-1")).
Proof.
  destruct (cancel_order_guard_and_releases
              all_granted 1001 (db_with (stored_order 1001 "CONFIRMED" (Some "key-1")))
              (stored_order 1001 "CONFIRMED" (Some "key-1")) eq_refl)
    as (_ & _ & Hcancel).
  destruct Hcancel as [Hcalls Hdone].
  - vm_compute. intros [H|[H|[H|[]]]]; discriminate H.
  - destruct (Hdone eq_refl eq_refl) as (_ & Htables & _).
    split; [exact Hcalls | exact Htables].
Defined.

(** C9, as stated, fails: the cancellation of a SHIPPED order is rejected
    with 400, not 409; and a confirmed order stored without a key is
    cancelled with no Release call for its line. *)
Lemma cancel_rejects_with_400_and_skips_release_without_key :
  cancel_order all_granted 1001 (db_with (stored_order 1001 "SHIPPED" (Some "key-1")))
  = (Raises (HTTPException 400 "Cannot cancel order with status: SHIPPED"),
     [], db_with (stored_order 1001 "SHIPPED" (Some "key-1")))
  /\ select_items (get_connection (db_with (stored_order 1001 "CONFIRMED" None))) 1001
     = [item_row 1001 (line_of (item 1 "LAPTOP001" 1) 29.99%float)]
  /\ cancel_order all_granted 1001 (db_with (stored_order 1001 "CONFIRMED" None))
     = (Returns ("Order cancelled successfully", 1001),
        [], db_with (stored_order 1001 "CANCELLED" None)).
Proof.
  split; [reflexivity|]. split; reflexivity.
Qed.

(** ** What a run of place_order can answer *)



(** ** Failures after the reservations *)

Section StoreFault.

Variables (env : Env) (fault : nat) (e : string).
Hypothesis Hfault : store_error env fault = Some e.
Hypothesis Hbefore : forall i, (i < fault)%nat -> store_error env i = None.

Lemma insert_order_items_fault (id : Z) (order_items : list OrderLine) :
  forall n conn,
    (n <= fault)%nat ->
    ((fault < n + List.length order_items)%nat ->
     exists conn', insert_order_items env id n order_items conn = inr (e, conn'))
    /\ ((n + List.length order_items <= fault)%nat ->
        exists conn', insert_order_items env id n order_items conn = inl conn').
Proof.
  induction order_items as [|line rest IH]; intros n conn Hn; cbn [insert_order_items List.length].
  - split; [lia | eauto].
  - destruct (Nat.eq_dec n fault) as [-> | Hneq].
    + rewrite Hfault. split; [eauto | lia].
    + rewrite Hbefore by lia.
      destruct (IH (S n) (insert_order_item conn (item_row id line))) as [Hin Hout]; [lia|].
      split; intros H; [apply Hin | apply Hout]; lia.
Qed.

(** The first write of Step 4 that raises ends the step with its message. *)
Lemma create_order_fault (conn : Connection) (row : OrderRow) (order_items : list OrderLine) :
  (fault <= S (List.length order_items))%nat ->
  exists conn', create_order env conn row order_items = inr (e, conn').
Proof.
  intros Hle. unfold create_order.
  destruct (Nat.eq_dec fault 0) as [Hzero | Hpos].
  - assert (H : store_error env 0 = Some e) by (now rewrite <- Hzero).
    rewrite H. eauto.
  - rewrite Hbefore by lia.
    destruct (insert_order_items_fault (order_id row) order_items 1 (insert_order conn row))
      as [Hin Hout]; [lia|].
    destruct (Nat.eq_dec fault (S (List.length order_items))) as [Hlast | Hline].
    + destruct Hout as [conn' ->]; [lia|].
      assert (H : store_error env (S (List.length order_items)) = Some e)
        by (now rewrite <- Hlast).
      rewrite H. eauto.
    + destruct Hin as [conn' ->]; [lia|]. eauto.
Qed.

End StoreFault.

(** X2. When a write of Step 4 raises, the INSERT of the order, of a line, or the
    commit, after the reservations were all granted and the stubbed payment
    approved, every reservation of the request is released, the request
    fails with 500 and the tables are unchanged. *)
Theorem store_failure_releases_and_stores_nothing :
  forall env header order_request db reservations order_items total_amount log fault e,
    let key := request_key env header order_request in
    let id := new_order_id env in
    select_order_by_key (get_connection db) key = None ->
    reserve_items env key id (items order_request) [] [] 0%float []
    = (Reserved reservations order_items total_amount, log) ->
    (fault <= S (List.length (items order_request)))%nat ->
    store_error env fault = Some e ->
    (forall i, (i < fault)%nat -> store_error env i = None) ->
    place_order env header order_request db
    = (Raises (HTTPException 500 ("Order processing failed: " ++ e)),
       (map (reserve_call_of key id) (items order_request)
          ++ map release_call (map (reservation_of key id) (items order_request)))%list,
       db).
Proof.
  intros env header order_request db reservations order_items total_amount log fault e
         key id Hnew Hloop Hle Hfault Hbefore.
  unfold place_order, place_order_with. fold key id. rewrite Hnew, Hloop.
  apply reserve_items_reserved in Hloop. destruct Hloop as (-> & -> & -> & ->).
  cbn [app mock_payment].
  pose proof (create_order_spec env (get_connection db)
                (confirmed_order env header order_request)
                (lines_of (items order_request))) as Hcommit.
  destruct (create_order_fault env fault e Hfault Hbefore (get_connection db)
              (confirmed_order env header order_request)
              (lines_of (items order_request))) as [conn' Hcreate].
  { unfold lines_of. now rewrite length_map. }
  rewrite Hcreate in Hcommit. unfold confirmed_order in Hcreate at 1.
  fold key id in Hcreate. rewrite Hcreate.
  unfold order_processing_failed. rewrite release_all_log.
  cbn [rollback durable]. now rewrite Hcommit.
Qed.

(** The commit of an order of two lines raises. *)
Lemma store_failure_releases_and_stores_nothing_witness :
  place_order (failing_write 3 "Lock wait timeout exceeded") None
              (request "key-11" two_items) empty_db
  = (Raises (HTTPException 500 "Order processing failed: Lock wait timeout exceeded"),
     [reserve_call_of "key-11" 1340435346 (item 1 "LAPTOP001" 2);
      reserve_call_of "key-11" 1340435346 (item 2 "MOUSE001" 1);
      release_call (reservation_of "key-11" 1340435346 (item 1 "LAPTOP001" 2));
      release_call (reservation_of "key-11" 1340435346 (item 2 "MOUSE001" 1))],
     empty_db).
Proof.
  refine (store_failure_releases_and_stores_nothing
            (failing_write 3 "Lock wait timeout exceeded") None
            (request "key-11" two_items) empty_db
            (map (reservation_of "key-11" 1340435346) two_items) (lines_of two_items)
            (sum_items two_items 0%float)
            (map (reserve_call_of "key-11" 1340435346) two_items)
            3%nat "Lock wait timeout exceeded" eq_refl _ _ eq_refl _).
  - vm_compute. reflexivity.
  - simpl. lia.
  - intros [|[|[|i]]] Hi; try reflexivity. lia.
Defined.

(** X3. When the Reserve call of an item is granted (answered 200 with a
    JSON body) but its quantity is too large to be converted to a float, the
    request fails with 500 and every reservation made so far, the one of that
    item included, is released; the tables are unchanged. *)
Theorem oversized_quantity_releases_all :
  forall env header order_request db pre big rest,
    let key := request_key env header order_request in
    let id := new_order_id env in
    select_order_by_key (get_connection db) key = None ->
    items order_request = (pre ++ big :: rest)%list ->
    (forall i it, nth_error pre i = Some it ->
       is_granted (respond env i (reserve_call_of key id it)) = true
       /\ float_of_int (quantity it) <> None) ->
    is_granted (respond env (List.length pre) (reserve_call_of key id big)) = true ->
    float_of_int (quantity big) = None ->
    place_order env header order_request db
    = (Raises (HTTPException 500
                 "Order processing failed: int too large to convert to float"),
       (map (reserve_call_of key id) (pre ++ [big])
          ++ map release_call (map (reservation_of key id) (pre ++ [big])))%list,
       db).
Proof.
  intros env header order_request db pre big rest key id Hnew Hitems Hpre Hgranted Hbig.
  unfold place_order, place_order_with. fold key id. rewrite Hnew, Hitems.
  rewrite reserve_items_granted by (intros i it Hi; now apply Hpre).
  cbn [app List.length reserve_items]. unfold post.
  rewrite length_map.
  destruct (respond env (List.length pre) (reserve_call_of key id big))
    as [status_code text [msg|]|msg]; simpl in Hgranted; try discriminate.
  rewrite Hgranted, Hbig. unfold order_processing_failed.
  rewrite release_all_log. cbn [rollback durable get_connection].
  now rewrite !map_app.
Qed.

(** One item of quantity 2^1024, granted. *)
Lemma oversized_quantity_releases_all_witness :
  place_order all_granted None (request "key-12" [item 1 "LAPTOP001" (2 ^ 1024)]) empty_db
  = (Raises (HTTPException 500
               "Order processing failed: int too large to convert to float"),
     [reserve_call_of "key-12" 1340435346 (item 1 "LAPTOP001" (2 ^ 1024));
      release_call (reservation_of "key-12" 1340435346 (item 1 "LAPTOP001" (2 ^ 1024)))],
     empty_db).
Proof.
  apply (oversized_quantity_releases_all
           all_granted None (request "key-12" [item 1 "LAPTOP001" (2 ^ 1024)]) empty_db
           [] (item 1 "LAPTOP001" (2 ^ 1024)) []).
  - reflexivity.
  - reflexivity.
  - intros [|i] it Hi; discriminate Hi.
  - reflexivity.
  - vm_compute. reflexivity.
Defined.

(** ** Uniqueness of the idempotency key *)

Lemma NoDup_snoc {A} (l : list A) (x : A) :
  NoDup l -> ~ In x l -> NoDup (l ++ [x]).
Proof.
  induction 1 as [|y l Hy Hl IH]; intros Hx; simpl.
  - constructor; [intros [] | constructor].
  - constructor.
    + rewrite in_app_iff. intros [H | [H | []]]; [now apply Hy | subst y].
      apply Hx. now left.
    + apply IH. intros H. apply Hx. now right.
Qed.

Lemma select_none_not_stored (db : Database) (key : string) :
  select_order_by_key (get_connection db) key = None -> ~ In key (stored_keys db).
Proof.
  unfold select_order_by_key, stored_keys. cbn [get_connection view].
  intros Hnone Hin. apply in_flat_map in Hin. destruct Hin as (row & Hrow & Hkey).
  apply (find_none _ _ Hnone) in Hrow. unfold has_key in Hrow.
  destruct (order_idempotency_key row) as [k|]; [|destruct Hkey].
  destruct Hkey as [<- | []]. rewrite String.eqb_refl in Hrow. discriminate.
Qed.

(** X4. When no two orders of the tables hold the same idempotency key, this is
    still so after a run of PlaceOrder: a request under a stored key adds no
    order, and a placed order carries a key that was not stored. *)
Theorem idempotency_key_stays_unique :
  forall env header order_request db,
    NoDup (stored_keys db) ->
    NoDup (stored_keys (tables_after (place_order env header order_request db))).
Proof.
  intros env header order_request db Hunique.
  destruct (select_order_by_key (get_connection db)
              (request_key env header order_request)) as [existing|] eqn:Hsel.
  - unfold place_order, place_order_with. now rewrite Hsel.
  - destruct (place_order_with_cases mock_payment env header order_request db)
      as [[Hsame _] | (Hnew & _)]; fold place_order in *.
    + now rewrite Hsame.
    + rewrite Hnew. unfold stored_keys, with_order. cbn [Orders].
      rewrite flat_map_app. cbn [flat_map confirmed_order order_idempotency_key app].
      apply NoDup_snoc; [exact Hunique|].
      now apply select_none_not_stored.
Qed.

(** A second order next to a stored one. *)
Lemma idempotency_key_stays_unique_witness :
  NoDup (stored_keys
           (tables_after
              (place_order all_granted None (request "key-2" two_items)
                           (db_with (stored_order 1001 "CONFIRMED" (Some "key-1")))))).
Proof.
  apply idempotency_key_stays_unique.
  vm_compute. constructor; [intros [] | constructor].
Defined.

(** ** Reading an order *)

(** X5. Reading an order by id returns the first stored order with that id,
    together with exactly the stored lines of that id; when no order has the
    id the answer is 500, with the text of the 404 as its detail, and never
    404. *)
Theorem get_order_by_id_answers :
  forall id db,
    (forall order lines,
        get_order_by_id id db = Returns (order, lines) ->
        select_order_by_id (get_connection db) id = Some order
        /\ In order (Orders db)
        /\ order_id order = id
        /\ forall row, In row lines <-> In row (Order_Items db) /\ item_order_id row = id)
    /\ ((exists order, In order (Orders db) /\ order_id order = id)
        <-> exists order lines, get_order_by_id id db = Returns (order, lines))
    /\ ((forall order, In order (Orders db) -> order_id order <> id) ->
        get_order_by_id id db = Raises (HTTPException 500 "404: Order not found"))
    /\ (forall detail, get_order_by_id id db <> Raises (HTTPException 404 detail)).
Proof.
  intros id db. unfold get_order_by_id, select_order_by_id, select_items.
  cbn [get_connection view].
  destruct (find (fun row => order_id row =? id) (Orders db)) as [order|] eqn:Hfind.
  - pose proof (find_some _ _ Hfind) as [Hin Hid]. apply Z.eqb_eq in Hid.
    split; [|split; [|split]].
    + intros order' lines H. injection H as <- <-.
      split; [reflexivity|]. split; [exact Hin|]. split; [exact Hid|].
      intros row. rewrite filter_In, Z.eqb_eq. reflexivity.
    + split; intros _; eauto.
    + intros Hnone. now destruct (Hnone order Hin).
    + intros detail H. discriminate H.
  - split; [|split; [|split]].
    + intros order lines H. discriminate H.
    + split.
      * intros (order & Hin & Hid). apply (find_none _ _ Hfind) in Hin.
        apply Z.eqb_neq in Hin. now destruct Hin.
      * intros (order & lines & H). discriminate H.
    + intros _. reflexivity.
    + intros detail H. discriminate H.
Qed.

Lemma find_snoc {A} (f : A -> bool) (l : list A) (x : A) :
  find f l = None -> find f (l ++ [x]) = if f x then Some x else None.
Proof.
  induction l as [|y l IH]; simpl; [reflexivity|].
  destruct (f y); [discriminate | exact IH].
Qed.

Lemma select_items_rows_of (id : Z) (items : list OrderItem) :
  filter (fun row => item_order_id row =? id) (rows_of id items) = rows_of id items.
Proof.
  unfold rows_of, lines_of. induction items as [|it rest IH]; simpl; [reflexivity|].
  now rewrite Z.eqb_refl, IH.
Qed.

(** A placed order was placed under a key no stored order held, and the
    tables then hold it with its lines. *)
Lemma placed_order_tables (env : Env) (header : option string)
    (order_request : PlaceOrderRequest) (db db' : Database) (placed : PlacedOrder)
    (log : list Call) :
  place_order env header order_request db = (Returns (order_placed placed), log, db') ->
  select_order_by_key (get_connection db) (request_key env header order_request) = None
  /\ db' = with_order env header order_request db
  /\ placed_order_id placed = new_order_id env.
Proof.
  intros Hrun.
  destruct (select_order_by_key (get_connection db)
              (request_key env header order_request)) as [existing|] eqn:Hsel.
  - unfold place_order, place_order_with in Hrun. rewrite Hsel in Hrun. discriminate Hrun.
  - split; [reflexivity|].
    destruct (place_order_with_cases mock_payment env header order_request db)
      as [[_ Hnot] | (Hnew & _ & placed' & Hout & Hid & _)];
      fold place_order in *; rewrite Hrun in *.
    + now destruct (Hnot placed).
    + injection Hout as <-. split; [exact Hnew | exact Hid].
Qed.

(** X6. An order that PlaceOrder has placed is read back by its id: when no
    stored order and no stored line carried the new id, reading the id
    returns the confirmed order with exactly one line for each item of the
    request, in order, with the amounts of the response. *)
Theorem placed_order_is_read_back :
  forall env header order_request db placed log db',
    place_order env header order_request db = (Returns (order_placed placed), log, db') ->
    select_order_by_id (get_connection db) (new_order_id env) = None ->
    select_items (get_connection db) (new_order_id env) = [] ->
    exists order,
      get_order_by_id (placed_order_id placed) db'
      = Returns (order, rows_of (placed_order_id placed) (items order_request))
      /\ order_status order = "CONFIRMED"
      /\ order_total order = placed_order_total placed
      /\ subtotal order = placed_subtotal placed
      /\ order_idempotency_key order = Some (placed_idempotency_key placed)
      /\ map item_quantity (rows_of (placed_order_id placed) (items order_request))
         = map quantity (items order_request).
Proof.
  intros env header order_request db placed log db' Hrun Hfresh Hlines.
  destruct (placed_order_tables _ _ _ _ _ _ _ Hrun) as (_ & -> & Hid).
  destruct (place_order_with_cases mock_payment env header order_request db)
    as [[_ Hnot] | (_ & _ & placed' & Hout & _ & _ & _ & Hs & _ & _ & Ht & _)];
    fold place_order in *; rewrite Hrun in *; [now destruct (Hnot placed)|].
  injection Hout as <-.
  exists (confirmed_order env header order_request).
  rewrite Hid. unfold get_order_by_id, select_order_by_id, select_items in *.
  cbn [get_connection view with_order Orders Order_Items] in *.
  rewrite (find_snoc _ _ _ Hfresh). cbn [confirmed_order order_id].
  rewrite Z.eqb_refl, filter_app, Hlines, select_items_rows_of. cbn [app].
  split; [reflexivity|]. split; [reflexivity|].
  split; [now rewrite Ht|]. split; [now rewrite Hs|].
  split.
  - unfold place_order, place_order_with in Hrun.
    destruct (select_order_by_key _ _); [discriminate Hrun|].
    destruct (reserve_items _ _ _ _ _ _ _ _) as [[? ? ?|[? ?|?] ?] ?];
      try discriminate Hrun.
    cbn [mock_payment] in Hrun.
    destruct (create_order _ _ _ _) as [?|[? ?]]; [|discriminate Hrun].
    injection Hrun as <- _ _. reflexivity.
  - unfold rows_of, lines_of. rewrite !map_map. reflexivity.
Qed.

(** Two items placed on empty tables, then read back. *)
Lemma placed_order_is_read_back_witness :
  exists order,
    get_order_by_id 1340435346
      (tables_after (place_order all_granted None (request "key-6" two_items) empty_db))
    = Returns (order, rows_of 1340435346 two_items)
    /\ order_status order = "CONFIRMED".
Proof.
  destruct (placed_order_is_read_back all_granted None (request "key-6" two_items)
              empty_db _ _ _ eq_refl eq_refl eq_refl)
    as (order & Hget & Hstatus & _).
  exists order. split; [exact Hget | exact Hstatus].
Defined.

(** ** Retrying a request *)

(** X7. Once PlaceOrder has placed an order, any later request that
    resolves to the same idempotency key, whatever its items, its customer
    and the answers of the collaborators, returns that order as already
    existing, with its lines, posts nothing and leaves the tables as they
    are. *)
Theorem retry_returns_the_placed_order :
  forall env header order_request db placed log db' env2 header2 order_request2,
    place_order env header order_request db = (Returns (order_placed placed), log, db') ->
    request_key env2 header2 order_request2 = request_key env header order_request ->
    exists existing,
      place_order env2 header2 order_request2 db'
      = (Returns (order_already_exists existing
                    (select_items (get_connection db) (placed_order_id placed)
                       ++ rows_of (placed_order_id placed) (items order_request))),
         [], db')
      /\ order_id existing = placed_order_id placed
      /\ order_status existing = "CONFIRMED"
      /\ order_total existing = placed_order_total placed
      /\ order_customer_id existing = customer_id order_request.
Proof.
  intros env header order_request db placed log db' env2 header2 order_request2 Hrun Hkey.
  destruct (placed_order_tables _ _ _ _ _ _ _ Hrun) as (Hnew & -> & Hid).
  destruct (place_order_with_cases mock_payment env header order_request db)
    as [[_ Hnot] | (_ & _ & placed' & Hout & _ & _ & _ & _ & _ & _ & Ht & _)];
    fold place_order in *; rewrite Hrun in *; [now destruct (Hnot placed)|].
  injection Hout as <-.
  exists (confirmed_order env header order_request).
  unfold place_order, place_order_with. rewrite Hkey.
  unfold select_order_by_key, select_items in *.
  cbn [get_connection view durable with_order Orders Order_Items] in *.
  rewrite (find_snoc _ _ _ Hnew). unfold has_key at 1.
  cbn [confirmed_order order_idempotency_key order_id]. rewrite String.eqb_refl.
  rewrite filter_app, select_items_rows_of, Hid.
  split; [reflexivity|]. split; [reflexivity|]. split; [reflexivity|].
  split; [now rewrite Ht | reflexivity].
Qed.

(** The same key sent again in the header, with three items instead of two
    and the second Reserve call now denied. *)
Lemma retry_returns_the_placed_order_witness :
  exists existing,
    place_order (answering 1 (Response 409 "insufficient stock" not_json)) (Some "key-6")
                (request "another-key" three_items)
                (tables_after (place_order all_granted None (request "key-6" two_items)
                                           empty_db))
    = (Returns (order_already_exists existing (rows_of 1340435346 two_items)),
       [],
       tables_after (place_order all_granted None (request "key-6" two_items) empty_db))
    /\ order_id existing = 1340435346.
Proof.
  destruct (retry_returns_the_placed_order
              all_granted None (request "key-6" two_items) empty_db _ _ _
              (answering 1 (Response 409 "insufficient stock" not_json)) (Some "key-6")
              (request "another-key" three_items) eq_refl eq_refl)
    as (existing & Hrun & Hid & _).
  exists existing. split; [exact Hrun | exact Hid].
Defined.

(** ** Cancelling *)

Lemma request_key_nonempty (env : Env) (header : option string)
    (order_request : PlaceOrderRequest) :
  uuid4 env <> "" ->
  nonempty (Some (request_key env header order_request))
  = Some (request_key env header order_request).
Proof.
  intros Huuid. unfold request_key, nonempty.
  destruct header as [h|].
  - destruct (h =? "")%string eqn:Hh; [|now rewrite Hh].
    destruct (idempotency_key order_request) as [k|].
    + destruct (k =? "")%string eqn:Hk; [|now rewrite Hk].
      apply String.eqb_neq in Huuid. now rewrite Huuid.
    + apply String.eqb_neq in Huuid. now rewrite Huuid.
  - destruct (idempotency_key order_request) as [k|].
    + destruct (k =? "")%string eqn:Hk; [|now rewrite Hk].
      apply String.eqb_neq in Huuid. now rewrite Huuid.
    + apply String.eqb_neq in Huuid. now rewrite Huuid.
Qed.

(** X8. Cancelling an order that PlaceOrder has placed releases exactly
    what was reserved for it: when the new id was carried by no stored order
    and no stored line, the Release calls of the cancellation are, in order,
    those of the reservations PlaceOrder made, one per item, under the same
    keys and the same order id; and when the store accepts the update the
    order is marked CANCELLED. *)
Theorem cancel_releases_what_was_reserved :
  forall env header order_request db placed log db' env2,
    let key := request_key env header order_request in
    let id := new_order_id env in
    place_order env header order_request db = (Returns (order_placed placed), log, db') ->
    uuid4 env <> "" ->
    select_order_by_id (get_connection db) id = None ->
    select_items (get_connection db) id = [] ->
    store_error env2 0 = None ->
    store_error env2 1 = None ->
    filter is_reserve log = map (reserve_call_of key id) (items order_request)
    /\ cancel_order env2 (placed_order_id placed) db'
       = (Returns ("Order cancelled successfully", placed_order_id placed),
          map release_call (map (reservation_of key id) (items order_request)),
          with_cancelled id db')
    /\ exists order,
         get_order_by_id id (with_cancelled id db')
         = Returns (order, rows_of id (items order_request))
         /\ order_status order = "CANCELLED"
         /\ order_total order = placed_order_total placed.
Proof.
  intros env header order_request db placed log db' env2 key id
         Hrun Huuid Hfresh Hlines Hok0 Hok1.
  destruct (placed_order_tables _ _ _ _ _ _ _ Hrun) as (Hnew & -> & Hid).
  fold id in Hid. rewrite Hid.
  assert (Hsel : select_order_by_id
                   (get_connection (with_order env header order_request db)) id
                 = Some (confirmed_order env header order_request)).
  { unfold select_order_by_id in *. cbn [get_connection view with_order Orders] in *.
    rewrite (find_snoc _ _ _ Hfresh). cbn [confirmed_order order_id]. fold id.
    now rewrite Z.eqb_refl. }
  assert (Hitems : select_items
                     (get_connection (with_order env header order_request db)) id
                   = rows_of id (items order_request)).
  { unfold select_items in *. cbn [get_connection view with_order Order_Items] in *.
    fold id. now rewrite filter_app, Hlines, select_items_rows_of. }
  split; [|split].
  - unfold place_order, place_order_with in Hrun. rewrite Hnew in Hrun.
    fold key id in Hrun.
    destruct (reserve_items env key id (items order_request) [] [] 0%float [])
      as [[reservations order_items total_amount | [status_code detail | e] reservations] log0]
      eqn:Hloop; try discriminate Hrun.
    apply reserve_items_reserved in Hloop. destruct Hloop as (-> & -> & -> & ->).
    cbn [mock_payment app] in Hrun.
    destruct (create_order _ _ _ _) as [conn | [e conn]]; [|discriminate Hrun].
    rewrite create_shipment_log in Hrun. unfold send_notification, post in Hrun.
    assert (Hres : forall its,
               filter is_reserve (map (reserve_call_of key id) its)
               = map (reserve_call_of key id) its).
    { induction its as [|it its IH]; simpl; [reflexivity | now rewrite IH]. }
    destruct (respond env _ _); injection Hrun as _ <- _;
      rewrite !filter_app, Hres; cbn; now rewrite !app_nil_r.
  - unfold cancel_order. rewrite Hsel.
    cbn [confirmed_order order_status order_idempotency_key existsb not_cancellable].
    change (("CONFIRMED" =? "CANCELLED")%string || (("CONFIRMED" =? "SHIPPED")%string
            || (("CONFIRMED" =? "DELIVERED")%string || false)))%bool with false.
    cbv iota. fold key. rewrite Hok0, Hok1.
    assert (Hkey : nonempty (Some key) = Some key)
      by (apply request_key_nonempty; exact Huuid).
    rewrite Hkey, Hitems, release_all_log. cbn [app].
    unfold rows_of, lines_of. rewrite !map_map. reflexivity.
  - exists (set_status "CANCELLED" id (confirmed_order env header order_request)).
    unfold get_order_by_id.
    unfold select_order_by_id in *.
    cbn [get_connection view with_cancelled Orders] in *.
    destruct (select_updated "CANCELLED" id _ _ Hsel) as [-> Hst].
    unfold select_items in *. cbn [get_connection view with_cancelled Order_Items] in *.
    rewrite Hitems. split; [reflexivity|]. split; [exact Hst|].
    destruct (place_order_with_cases mock_payment env header order_request db)
      as [[_ Hnot] | (_ & _ & placed' & Hout & _ & _ & _ & _ & _ & _ & Ht & _)];
      fold place_order in *; rewrite Hrun in *; [now destruct (Hnot placed)|].
    injection Hout as <-. rewrite Ht.
    unfold set_status. now destruct (order_id _ =? id).
Qed.

(** Two items are placed, then the order is cancelled: two Release calls
    under the keys of the two reservations. *)
Lemma cancel_releases_what_was_reserved_witness :
  cancel_order all_granted 1340435346
    (tables_after (place_order all_granted None (request "key-6" two_items) empty_db))
  = (Returns ("Order cancelled successfully", 1340435346),
     [release_call {| reservation_key := "key-6_1"; reservation_order := "1340435346" |};
      release_call {| reservation_key := "key-6_2"; reservation_order := "1340435346" |}],
     with_cancelled 1340435346
       (tables_after (place_order all_granted None (request "key-6" two_items) empty_db))).
Proof.
  assert (Huuid : uuid4 all_granted <> "") by (vm_compute; discriminate).
  destruct (cancel_releases_what_was_reserved
              all_granted None (request "key-6" two_items) empty_db _ _ _ all_granted
              eq_refl Huuid eq_refl eq_refl eq_refl eq_refl) as (_ & Hcancel & _).
  exact Hcancel.
Defined.

(** X9. A cancellation that succeeded cannot be repeated: after CancelOrder
    has returned, a second CancelOrder of the same id is rejected with 400,
    posts no Release call and leaves the tables unchanged. *)
Theorem second_cancel_is_rejected :
  forall env id db message log db' env2,
    cancel_order env id db = (Returns message, log, db') ->
    cancel_order env2 id db'
    = (Raises (HTTPException 400 "Cannot cancel order with status: CANCELLED"), [], db').
Proof.
  intros env id db message log db' env2 Hrun.
  unfold cancel_order in Hrun.
  destruct (select_order_by_id (get_connection db) id) as [order|] eqn:Hsel;
    [|discriminate Hrun].
  destruct (existsb (String.eqb (order_status order)) not_cancellable);
    [discriminate Hrun|].
  destruct (store_error env 0); [discriminate Hrun|].
  destruct (store_error env 1); [discriminate Hrun|].
  injection Hrun as _ _ <-.
  unfold cancel_order, select_order_by_id in *.
  cbn [get_connection view durable commit update_order_status Orders] in *.
  destruct (select_updated "CANCELLED" id _ _ Hsel) as [-> ->].
  reflexivity.
Qed.

(** A stored order is cancelled twice. *)
Lemma second_cancel_is_rejected_witness :
  cancel_order all_granted 1001
    (tables_after (cancel_order all_granted 1001
                     (db_with (stored_order 1001 "CONFIRMED" (Some "key-1")))))
  = (Raises (HTTPException 400 "Cannot cancel order with status: CANCELLED"), [],
     tables_after (cancel_order all_granted 1001
                     (db_with (stored_order 1001 "CONFIRMED" (Some "key-1"))))).
Proof.
  exact (second_cancel_is_rejected all_granted 1001
           (db_with (stored_order 1001 "CONFIRMED" (Some "key-1"))) _ _ _ all_granted
           eq_refl).
Defined.

Lemma set_status_same_but_status (status : string) (id : Z) (row : OrderRow) :
  same_but_status row (set_status status id row)
  /\ (order_id row <> id -> set_status status id row = row).
Proof.
  unfold set_status, same_but_status.
  destruct (order_id row =? id) eqn:Hid; cbn.
  - apply Z.eqb_eq in Hid. repeat split; try reflexivity. intros H. now destruct H.
  - repeat split; reflexivity.
Qed.

(** X10. Whatever its outcome, CancelOrder changes nothing but the status
    of the orders of the given id: the lines are untouched, the orders stay
    the same in number and in order, each keeps its id, customer, payment
    status, amounts, signature, key and date, and an order of another id is
    unchanged. An id that no order carries is answered 404, with no call and
    no change. *)
Theorem cancel_order_changes_status_only :
  forall env id db,
    Order_Items (tables_after (cancel_order env id db)) = Order_Items db
    /\ Forall2 (fun old new => same_but_status old new
                               /\ (order_id old <> id -> new = old))
               (Orders db) (Orders (tables_after (cancel_order env id db)))
    /\ (select_order_by_id (get_connection db) id = None ->
        cancel_order env id db = (Raises (HTTPException 404 "Order not found"), [], db)).
Proof.
  intros env id db.
  assert (Hsame : Forall2 (fun old new => same_but_status old new
                                          /\ (order_id old <> id -> new = old))
                          (Orders db) (Orders db)).
  { induction (Orders db) as [|row rows IH]; constructor; [|exact IH].
    split; [|reflexivity]. unfold same_but_status. repeat split. }
  split; [|split].
  - destruct (cancel_order_tables env id db) as [-> | ->]; reflexivity.
  - destruct (cancel_order_tables env id db) as [-> | ->]; [exact Hsame|].
    cbn [with_cancelled Orders]. clear Hsame.
    induction (Orders db) as [|row rows IH]; constructor; [|exact IH].
    apply set_status_same_but_status.
  - intros Hnone. unfold cancel_order. now rewrite Hnone.
Qed.

(** ** Listing orders *)

Lemma insert_recent_perm (row : OrderRow) (sorted : list OrderRow) :
  Permutation (insert_recent row sorted) (row :: sorted).
Proof.
  induction sorted as [|row' rest IH]; simpl; [reflexivity|].
  destruct (created_at row' <=? created_at row); [reflexivity|].
  rewrite IH. apply perm_swap.
Qed.

Lemma order_by_created_at_desc_perm (rows : list OrderRow) :
  Permutation (order_by_created_at_desc rows) rows.
Proof.
  unfold order_by_created_at_desc.
  induction rows as [|row rest IH]; simpl; [reflexivity|].
  rewrite insert_recent_perm. now constructor.
Qed.

Lemma insert_recent_sorted (row : OrderRow) (sorted : list OrderRow) :
  Sorted not_older sorted -> Sorted not_older (insert_recent row sorted).
Proof.
  induction sorted as [|row' rest IH]; intros Hsorted; simpl.
  - repeat constructor.
  - destruct (created_at row' <=? created_at row) eqn:Hle.
    + constructor; [exact Hsorted|]. constructor. unfold not_older. lia.
    + apply Sorted_inv in Hsorted. destruct Hsorted as [Hrest Hhd].
      constructor; [now apply IH|].
      destruct rest as [|row'' rest']; simpl.
      * constructor. unfold not_older. lia.
      * destruct (created_at row'' <=? created_at row); constructor.
        -- unfold not_older. lia.
        -- now apply HdRel_inv in Hhd.
Qed.

Lemma order_by_created_at_desc_sorted (rows : list OrderRow) :
  StronglySorted not_older (order_by_created_at_desc rows).
Proof.
  apply Sorted_StronglySorted.
  - intros a b c Hab Hbc. unfold not_older in *. lia.
  - unfold order_by_created_at_desc.
    induction rows as [|row rest IH]; simpl; [constructor|].
    now apply insert_recent_sorted.
Qed.

Lemma strongly_sorted_split {A} (R : A -> A -> Prop) (l : list A) :
  StronglySorted R l ->
  forall n a b, In a (firstn n l) -> In b (skipn n l) -> R a b.
Proof.
  induction 1 as [|x l Hl IH Hx]; intros n a b Ha Hb.
  - destruct n; destruct Ha.
  - destruct n as [|n]; [destruct Ha|].
    simpl in Ha, Hb. destruct Ha as [<- | Ha].
    + rewrite Forall_forall in Hx. apply Hx.
      rewrite <- (firstn_skipn n l). apply in_or_app. now right.
    + now apply (IH n).
Qed.

(** X11. For a limit that is not negative, the list of orders returns the
    most recent ones: as many orders as the limit allows, by decreasing
    creation date, the count being their number; and every stored order left
    out is at most as recent as every order returned. *)
Theorem get_orders_returns_most_recent :
  forall syntax_error limit db,
    0 <= limit ->
    exists orders others,
      get_orders syntax_error limit db = Returns (orders, Z.of_nat (List.length orders))
      /\ List.length orders = Nat.min (Z.to_nat limit) (List.length (Orders db))
      /\ StronglySorted not_older orders
      /\ Permutation (orders ++ others) (Orders db)
      /\ forall a b, In a orders -> In b others -> created_at b <= created_at a.
Proof.
  intros syntax_error limit db Hlimit.
  exists (firstn (Z.to_nat limit) (order_by_created_at_desc (Orders db))),
         (skipn (Z.to_nat limit) (order_by_created_at_desc (Orders db))).
  split; [|split; [|split; [|split]]].
  - unfold get_orders. replace (limit <? 0) with false by (symmetry; apply Z.ltb_ge; lia).
    reflexivity.
  - rewrite length_firstn.
    now rewrite (Permutation_length (order_by_created_at_desc_perm (Orders db))).
  - pose proof (order_by_created_at_desc_sorted (Orders db)) as Hsorted.
    rewrite <- (firstn_skipn (Z.to_nat limit)) in Hsorted.
    revert Hsorted. generalize (firstn (Z.to_nat limit) (order_by_created_at_desc (Orders db))).
    intros l. induction l as [|x l IH]; intros Hsorted; [constructor|].
    simpl in Hsorted. apply StronglySorted_inv in Hsorted. destruct Hsorted as [Hl Hx].
    constructor; [now apply IH|].
    rewrite Forall_forall in *. intros y Hy. apply Hx. apply in_or_app. now left.
  - rewrite firstn_skipn. apply order_by_created_at_desc_perm.
  - intros a b Ha Hb.
    exact (strongly_sorted_split not_older _ (order_by_created_at_desc_sorted (Orders db))
             (Z.to_nat limit) a b Ha Hb).
Qed.

(** Three stored orders and a limit of two. *)
Lemma get_orders_returns_most_recent_witness :
  exists orders others,
    get_orders "1064 (42000): You have an error in your SQL syntax" 2
      {| Orders := [stored_order 1001 "CONFIRMED" (Some "key-1");
                    confirmed_order all_granted None (request "key-6" two_items);
                    stored_order 1002 "SHIPPED" (Some "key-2")];
         Order_Items := [] |}
    = Returns (orders, 2)
    /\ Permutation (orders ++ others)
                   [stored_order 1001 "CONFIRMED" (Some "key-1");
                    confirmed_order all_granted None (request "key-6" two_items);
                    stored_order 1002 "SHIPPED" (Some "key-2")]
    /\ In (confirmed_order all_granted None (request "key-6" two_items)) orders.
Proof.
  destruct (get_orders_returns_most_recent
              "1064 (42000): You have an error in your SQL syntax" 2
              {| Orders := [stored_order 1001 "CONFIRMED" (Some "key-1");
                            confirmed_order all_granted None (request "key-6" two_items);
                            stored_order 1002 "SHIPPED" (Some "key-2")];
                 Order_Items := [] |})
    as (orders & others & Hrun & Hlen & _ & Hperm & _); [lia|].
  exists orders, others. rewrite Hlen in Hrun.
  split; [exact Hrun|]. split; [exact Hperm|].
  vm_compute in Hrun. injection Hrun as <-. left. reflexivity.
Defined.

(** ** The shipments service *)

Lemma existsb_has_shipment_id (id : Z) (db : list Shipment) :
  existsb (has_shipment_id id) db = true <-> In id (map shipment_id db).
Proof.
  rewrite existsb_exists, in_map_iff. unfold has_shipment_id.
  split; intros (row & H1 & H2).
  - exists row. apply Z.eqb_eq in H2. now split.
  - exists row. split; [exact H2 | now apply Z.eqb_eq].
Qed.

Lemma find_shipment_none (id : Z) (db : list Shipment) :
  (forall row, In row db -> shipment_id row <> id) ->
  find (has_shipment_id id) db = None.
Proof.
  intros Hnone. induction db as [|row rest IH]; simpl; [reflexivity|].
  unfold has_shipment_id at 1.
  destruct (shipment_id row =? id) eqn:Hid.
  - apply Z.eqb_eq in Hid. now destruct (Hnone row (or_introl eq_refl)).
  - apply IH. intros row' Hin. apply Hnone. now right.
Qed.

Lemma filter_shipment_none (id : Z) (db : list Shipment) :
  (forall row, In row db -> shipment_id row <> id) ->
  filter (has_shipment_id id) db = []
  /\ filter (fun row => negb (has_shipment_id id row)) db = db.
Proof.
  intros Hnone. induction db as [|row rest IH]; simpl; [repeat split|].
  destruct IH as (IH1 & IH2); [intros row' Hin; apply Hnone; now right|].
  assert (Hid : has_shipment_id id row = false).
  { unfold has_shipment_id. apply Z.eqb_neq. apply Hnone. now left. }
  rewrite Hid. cbn. now rewrite IH1, IH2.
Qed.

Lemma find_app_some {A} (f : A -> bool) (l l' : list A) (x : A) :
  find f l = Some x -> find f (l ++ l') = Some x.
Proof.
  induction l as [|y l IH]; simpl; [discriminate|].
  destruct (f y); [trivial | exact IH].
Qed.

(** An addition under a new id, with the writes accepted, appends the row. *)
Lemma add_shipment_accepted (env : Env) (s : Shipment) (db : list Shipment) :
  (forall row, In row db -> shipment_id row <> shipment_id s) ->
  store_error env 0 = None ->
  store_error env 1 = None ->
  add_shipment env s db = (Returns "✅ Shipment inserted successfully", (db ++ [s])%list).
Proof.
  intros Hfresh Hok0 Hok1.
  unfold add_shipment, insert_shipment. rewrite Hok0.
  cbn [get_shipping_connection shipments_view].
  destruct (existsb (has_shipment_id (shipment_id s)) db) eqn:Hdup.
  - apply existsb_has_shipment_id in Hdup. apply in_map_iff in Hdup.
    destruct Hdup as (row & Hid & Hin). now destruct (Hfresh row Hin).
  - now rewrite Hok1.
Qed.

(** X12. A shipment added under an id that no stored shipment carries is
    stored, when the store accepts the writes, at the end of the table, and is
    read back under its id as it was sent; the shipments of the other ids are
    read as before. *)
Theorem added_shipment_is_read_back :
  forall env s db,
    (forall row, In row db -> shipment_id row <> shipment_id s) ->
    store_error env 0 = None ->
    store_error env 1 = None ->
    add_shipment env s db = (Returns "✅ Shipment inserted successfully", (db ++ [s])%list)
    /\ get_shipment_by_id (shipment_id s) ((db ++ [s])%list) = Returns s
    /\ forall id, id <> shipment_id s ->
         get_shipment_by_id id ((db ++ [s])%list) = get_shipment_by_id id db.
Proof.
  intros env s db Hfresh Hok0 Hok1. split; [|split].
  - now apply add_shipment_accepted.
  - unfold get_shipment_by_id. cbn [get_shipping_connection shipments_view].
    rewrite find_snoc by (now apply find_shipment_none).
    unfold has_shipment_id. now rewrite Z.eqb_refl.
  - intros id Hid. unfold get_shipment_by_id.
    cbn [get_shipping_connection shipments_view].
    destruct (find (has_shipment_id id) db) as [row|] eqn:Hfind.
    + now rewrite (find_app_some _ _ [s] _ Hfind).
    + rewrite find_snoc by exact Hfind. unfold has_shipment_id.
      apply Z.eqb_neq in Hid. rewrite Z.eqb_sym in Hid. now rewrite Hid.
Qed.

(** A second shipment added next to a stored one. *)
Lemma added_shipment_is_read_back_witness :
  add_shipment all_granted (shipment 8 "CREATED") [shipment 7 "SHIPPED"]
  = (Returns "✅ Shipment inserted successfully",
     [shipment 7 "SHIPPED"; shipment 8 "CREATED"])
  /\ get_shipment_by_id 8 [shipment 7 "SHIPPED"; shipment 8 "CREATED"]
     = Returns (shipment 8 "CREATED").
Proof.
  destruct (added_shipment_is_read_back all_granted (shipment 8 "CREATED")
              [shipment 7 "SHIPPED"]) as (Hadd & Hget & _).
  - intros row [<- | []]. discriminate.
  - reflexivity.
  - reflexivity.
  - split; [exact Hadd | exact Hget].
Defined.

Lemma set_shipment_id (id : Z) (s row : Shipment) :
  shipment_id (set_shipment id s row) = shipment_id row.
Proof.
  unfold set_shipment, has_shipment_id.
  destruct (shipment_id row =? id) eqn:Hid; [|reflexivity].
  apply Z.eqb_eq in Hid. now rewrite Hid.
Qed.

Lemma map_set_shipment_ids (id : Z) (s : Shipment) (db : list Shipment) :
  map shipment_id (map (set_shipment id s) db) = map shipment_id db.
Proof.
  rewrite map_map. apply map_ext. intros row. apply set_shipment_id.
Qed.

(** Removing rows keeps the shipment ids distinct. *)
Lemma filtered_shipment_ids_unique (keep : Shipment -> bool) (db : list Shipment) :
  NoDup (map shipment_id db) -> NoDup (map shipment_id (filter keep db)).
Proof.
  induction db as [|row rest IH]; cbn [filter map]; intros Hunique; [constructor|].
  apply NoDup_cons_iff in Hunique. destruct Hunique as [Hrow Hrest].
  destruct (keep row); [|now apply IH].
  cbn [map]. apply NoDup_cons; [|now apply IH].
  intros Hin. apply Hrow. apply in_map_iff in Hin. destruct Hin as (row' & Hid & Hin).
  apply filter_In in Hin. apply in_map_iff. exists row'. now split.
Qed.

(** The table after each write is the table before or the one the
    statement makes. *)
Lemma add_shipment_table (env : Env) (s : Shipment) (db : list Shipment) :
  snd (add_shipment env s db) = db
  \/ (snd (add_shipment env s db) = (db ++ [s])%list
      /\ ~ In (shipment_id s) (map shipment_id db)).
Proof.
  unfold add_shipment, insert_shipment.
  destruct (store_error env 0); [now left|].
  cbn [get_shipping_connection shipments_view].
  destruct (existsb (has_shipment_id (shipment_id s)) db) eqn:Hdup; [now left|].
  destruct (store_error env 1); [now left|].
  right. split; [reflexivity|]. intros Hin.
  apply existsb_has_shipment_id in Hin. congruence.
Qed.

Lemma update_shipment_table (env : Env) (found_rows : bool) (id : Z) (s : Shipment)
    (db : list Shipment) :
  snd (update_shipment env found_rows id s db) = db
  \/ snd (update_shipment env found_rows id s db) = map (set_shipment id s) db.
Proof.
  unfold update_shipment.
  destruct (store_error env 0); [now left|].
  destruct (store_error env 1); [now left|].
  destruct (Nat.eqb _ 0); now right.
Qed.

Lemma delete_shipment_table (env : Env) (id : Z) (db : list Shipment) :
  snd (delete_shipment env id db) = db
  \/ snd (delete_shipment env id db)
     = filter (fun row => negb (has_shipment_id id row)) db.
Proof.
  unfold delete_shipment.
  destruct (store_error env 0); [now left|].
  destruct (store_error env 1); [now left|].
  destruct (Nat.eqb _ 0); now right.
Qed.

(** X13. The shipment ids of the table stay pairwise distinct under every
    write of the service: adding, updating and deleting a shipment keep them
    so, whatever the outcome; and adding a shipment under an id that is
    stored is answered 500 and leaves the table unchanged. *)
Theorem shipment_id_stays_unique :
  forall env db,
    NoDup (map shipment_id db) ->
    (forall s, NoDup (map shipment_id (snd (add_shipment env s db))))
    /\ (forall found_rows id s,
          NoDup (map shipment_id (snd (update_shipment env found_rows id s db))))
    /\ (forall id, NoDup (map shipment_id (snd (delete_shipment env id db))))
    /\ (forall s, In (shipment_id s) (map shipment_id db) ->
          exists detail, add_shipment env s db = (Raises (HTTPException 500 detail), db)).
Proof.
  intros env db Hunique. split; [|split; [|split]].
  - intros s. destruct (add_shipment_table env s db) as [-> | [-> Hfresh]]; [exact Hunique|].
    rewrite map_app. now apply NoDup_snoc.
  - intros found_rows id s.
    destruct (update_shipment_table env found_rows id s db) as [-> | ->]; [exact Hunique|].
    now rewrite map_set_shipment_ids.
  - intros id. destruct (delete_shipment_table env id db) as [-> | ->]; [exact Hunique|].
    now apply filtered_shipment_ids_unique.
  - intros s Hin. apply existsb_has_shipment_id in Hin.
    unfold add_shipment, insert_shipment.
    destruct (store_error env 0); [eauto|].
    cbn [get_shipping_connection shipments_view]. rewrite Hin. eauto.
Qed.

(** A shipment is added under the id of a stored one. *)
Lemma shipment_id_stays_unique_witness :
  exists detail,
    add_shipment all_granted (shipment 7 "CREATED") [shipment 7 "SHIPPED"]
    = (Raises (HTTPException 500 detail), [shipment 7 "SHIPPED"]).
Proof.
  assert (Hunique : NoDup (map shipment_id [shipment 7 "SHIPPED"]))
    by (constructor; [intros [] | constructor]).
  exact (proj2 (proj2 (proj2 (shipment_id_stays_unique all_granted
                                [shipment 7 "SHIPPED"] Hunique)))
           (shipment 7 "CREATED") (or_introl eq_refl)).
Defined.

(** X14. No handler of the shipments service answers 404. Reading,
    updating or deleting a shipment whose id is not stored is answered 500,
    with the text of the 404 as detail, and leaves the table unchanged; and
    every failure of the four handlers carries the status 500. *)
Theorem missing_shipment_is_answered_500 :
  forall env found_rows id s db,
    ((forall row, In row db -> shipment_id row <> id) ->
     get_shipment_by_id id db = Raises (HTTPException 500 "404: Shipment not found")
     /\ (store_error env 0 = None ->
         store_error env 1 = None ->
         update_shipment env found_rows id s db
         = (Raises (HTTPException 500 "404: Shipment not found"), db)
         /\ delete_shipment env id db
            = (Raises (HTTPException 500 "404: Shipment not found"), db)))
    /\ (forall e,
          get_shipment_by_id id db = Raises e
          \/ fst (add_shipment env s db) = Raises e
          \/ fst (update_shipment env found_rows id s db) = Raises e
          \/ fst (delete_shipment env id db) = Raises e ->
          exists detail, e = HTTPException 500 detail).
Proof.
  intros env found_rows id s db. split.
  - intros Hnone. destruct (filter_shipment_none id db Hnone) as (Hf1 & Hf2).
    split.
    + unfold get_shipment_by_id. cbn [get_shipping_connection shipments_view].
      now rewrite find_shipment_none.
    + intros Hok0 Hok1. split.
      * unfold update_shipment, update_rowcount. rewrite Hok0, Hok1.
        cbn [get_shipping_connection shipments_view shipments_durable
             shipping_commit shipping_rollback].
        assert (Hcount : filter (fun row => (has_shipment_id id row
                                   && (found_rows || negb (same_columns s row)))%bool) db
                         = []).
        { clear Hf1 Hf2. induction db as [|row rest IH]; simpl; [reflexivity|].
          assert (Hid : has_shipment_id id row = false).
          { unfold has_shipment_id. apply Z.eqb_neq. apply Hnone. now left. }
          rewrite Hid. cbn. apply IH. intros row' Hin. apply Hnone. now right. }
        rewrite Hcount. cbn [List.length Nat.eqb].
        assert (Hmap : map (set_shipment id s) db = db).
        { clear Hf1 Hf2 Hcount. induction db as [|row rest IH]; simpl; [reflexivity|].
          unfold set_shipment at 1.
          assert (Hid : has_shipment_id id row = false).
          { unfold has_shipment_id. apply Z.eqb_neq. apply Hnone. now left. }
          rewrite Hid, IH; [reflexivity|]. intros row' Hin. apply Hnone. now right. }
        now rewrite Hmap.
      * unfold delete_shipment. rewrite Hok0, Hok1.
        cbn [get_shipping_connection shipments_view shipments_durable
             shipping_commit shipping_rollback].
        now rewrite Hf1, Hf2.
  - intros e [H | [H | [H | H]]].
    + unfold get_shipment_by_id in H. destruct (find _ _); [discriminate H|].
      injection H as <-. eauto.
    + unfold add_shipment in H. destruct (insert_shipment _ _ _); cbn in H.
      * destruct (store_error env 1); [|discriminate H]. injection H as <-. eauto.
      * injection H as <-. eauto.
    + unfold update_shipment in H.
      destruct (store_error env 0); [injection H as <-; eauto|].
      destruct (store_error env 1); [injection H as <-; eauto|].
      destruct (Nat.eqb _ 0); [|discriminate H]. injection H as <-. eauto.
    + unfold delete_shipment in H.
      destruct (store_error env 0); [injection H as <-; eauto|].
      destruct (store_error env 1); [injection H as <-; eauto|].
      destruct (Nat.eqb _ 0); [|discriminate H]. injection H as <-. eauto.
Qed.

(** Shipment 9 is read, updated and deleted in a table that holds shipment 7. *)
Lemma missing_shipment_is_answered_500_witness :
  get_shipment_by_id 9 [shipment 7 "SHIPPED"]
  = Raises (HTTPException 500 "404: Shipment not found")
  /\ update_shipment all_granted true 9 (shipment 9 "DELIVERED") [shipment 7 "SHIPPED"]
     = (Raises (HTTPException 500 "404: Shipment not found"), [shipment 7 "SHIPPED"])
  /\ delete_shipment all_granted 9 [shipment 7 "SHIPPED"]
     = (Raises (HTTPException 500 "404: Shipment not found"), [shipment 7 "SHIPPED"]).
Proof.
  destruct (proj1 (missing_shipment_is_answered_500 all_granted true 9
                     (shipment 9 "DELIVERED") [shipment 7 "SHIPPED"]))
    as (Hget & Hwrite).
  - intros row [<- | []]. discriminate.
  - destruct (Hwrite eq_refl eq_refl) as [Hupdate Hdelete].
    split; [exact Hget|]. split; [exact Hupdate | exact Hdelete].
Defined.

Lemma find_updated_shipment (id : Z) (s : Shipment) (db : list Shipment) (old : Shipment) :
  In old db -> shipment_id old = id ->
  find (has_shipment_id id) (map (set_shipment id s) db) = Some (updated_row id s).
Proof.
  intros Hin Hid. induction db as [|row rest IH]; [destruct Hin|].
  cbn [map find].
  destruct (has_shipment_id id row) eqn:Hrow.
  - assert (Hset : set_shipment id s row = updated_row id s)
      by (unfold set_shipment; now rewrite Hrow).
    rewrite Hset. unfold has_shipment_id at 1. cbn [updated_row shipment_id].
    now rewrite Z.eqb_refl.
  - assert (Hset : set_shipment id s row = row)
      by (unfold set_shipment; now rewrite Hrow).
    rewrite Hset, Hrow. apply IH. destruct Hin as [-> | Hin]; [|exact Hin].
    unfold has_shipment_id in Hrow. apply Z.eqb_neq in Hrow. now destruct Hrow.
Qed.

Lemma find_other_after_update (id id' : Z) (s : Shipment) (db : list Shipment) :
  id' <> id ->
  find (has_shipment_id id') (map (set_shipment id s) db) = find (has_shipment_id id') db.
Proof.
  intros Hother. induction db as [|row rest IH]; [reflexivity|].
  cbn [map find].
  replace (has_shipment_id id' (set_shipment id s row)) with (has_shipment_id id' row)
    by (unfold has_shipment_id; now rewrite set_shipment_id).
  destruct (has_shipment_id id' row) eqn:Hrow; [|exact IH].
  unfold set_shipment.
  destruct (has_shipment_id id row) eqn:Hrow'; [|reflexivity].
  unfold has_shipment_id in *. apply Z.eqb_eq in Hrow, Hrow'. congruence.
Qed.

Lemma find_other_after_delete (id id' : Z) (db : list Shipment) :
  id' <> id ->
  find (has_shipment_id id') (filter (fun row => negb (has_shipment_id id row)) db)
  = find (has_shipment_id id') db.
Proof.
  intros Hother. induction db as [|row rest IH]; [reflexivity|].
  cbn [filter find].
  destruct (has_shipment_id id row) eqn:Hrow; cbn [negb find].
  - replace (has_shipment_id id' row) with false; [exact IH|].
    unfold has_shipment_id in *. apply Z.eqb_eq in Hrow.
    symmetry. apply Z.eqb_neq. congruence.
  - now rewrite IH.
Qed.

Lemma find_deleted (id : Z) (db : list Shipment) :
  find (has_shipment_id id) (filter (fun row => negb (has_shipment_id id row)) db) = None.
Proof.
  induction db as [|row rest IH]; [reflexivity|].
  cbn [filter]. destruct (has_shipment_id id row) eqn:Hrow; cbn [negb find]; [exact IH|].
  now rewrite Hrow.
Qed.

(** X15. Updating a stored shipment, when the update counts as a row
    (FOUND_ROWS is set, or a column changes) and the store accepts the writes,
    replaces every column but the id by those of the request: the shipment is
    then read under the id of the path with the columns sent, the
    [shipment_id] of the body being ignored; the ids of the table and the
    shipments of the other ids are as before. *)
Theorem update_shipment_replaces_columns :
  forall env found_rows id s db old,
    In old db ->
    shipment_id old = id ->
    found_rows = true \/ same_columns s old = false ->
    store_error env 0 = None ->
    store_error env 1 = None ->
    update_shipment env found_rows id s db
    = (Returns "✅ Shipment updated successfully", map (set_shipment id s) db)
    /\ get_shipment_by_id id (map (set_shipment id s) db)
       = Returns {| shipment_id := id;
                    shipment_order_id := shipment_order_id s;
                    carrier := carrier s;
                    shipment_status := shipment_status s;
                    tracking_no := tracking_no s;
                    shipped_at := shipped_at s;
                    delivered_at := delivered_at s |}
    /\ map shipment_id (map (set_shipment id s) db) = map shipment_id db
    /\ forall id', id' <> id ->
         get_shipment_by_id id' (map (set_shipment id s) db) = get_shipment_by_id id' db.
Proof.
  intros env found_rows id s db old Hin Hid Hcounts Hok0 Hok1.
  split; [|split; [|split]].
  - unfold update_shipment, update_rowcount. rewrite Hok0, Hok1.
    cbn [get_shipping_connection shipments_view shipments_durable shipping_commit].
    assert (Hrow : In old (filter (fun row => (has_shipment_id id row
                                     && (found_rows || negb (same_columns s row)))%bool) db)).
    { apply filter_In. split; [exact Hin|].
      unfold has_shipment_id. apply Z.eqb_eq in Hid. rewrite Hid.
      destruct Hcounts as [-> | ->]; [reflexivity | now destruct found_rows]. }
    destruct (filter _ db) as [|row rows]; [destruct Hrow | reflexivity].
  - unfold get_shipment_by_id. cbn [get_shipping_connection shipments_view].
    now rewrite (find_updated_shipment id s db old Hin Hid).
  - apply map_set_shipment_ids.
  - intros id' Hother. unfold get_shipment_by_id.
    cbn [get_shipping_connection shipments_view].
    now rewrite find_other_after_update.
Qed.

(** Shipment 7 is marked DELIVERED by a request whose body names shipment 99. *)
Lemma update_shipment_replaces_columns_witness :
  update_shipment all_granted false 7 (shipment 99 "DELIVERED")
                  [shipment 7 "SHIPPED"; shipment 8 "CREATED"]
  = (Returns "✅ Shipment updated successfully",
     [shipment 7 "DELIVERED"; shipment 8 "CREATED"])
  /\ get_shipment_by_id 7 [shipment 7 "DELIVERED"; shipment 8 "CREATED"]
     = Returns (shipment 7 "DELIVERED").
Proof.
  destruct (update_shipment_replaces_columns all_granted false 7 (shipment 99 "DELIVERED")
              [shipment 7 "SHIPPED"; shipment 8 "CREATED"] (shipment 7 "SHIPPED")
              (or_introl eq_refl) eq_refl (or_intror eq_refl) eq_refl eq_refl)
    as (Hupdate & Hget & _).
  split; [exact Hupdate | exact Hget].
Defined.

Lemma option_eqb_eq (a b : option Z) : option_eqb a b = true -> a = b.
Proof.
  destruct a as [x|], b as [y|]; simpl; try discriminate; [|reflexivity].
  intros H. apply Z.eqb_eq in H. now subst.
Qed.

Lemma same_columns_updated_row (s row : Shipment) :
  same_columns s row = true -> updated_row (shipment_id row) s = row.
Proof.
  unfold same_columns. intros H.
  repeat (apply andb_prop in H; destruct H as [H ?]).
  apply Z.eqb_eq in H.
  repeat match goal with
         | Hs : (_ =? _)%string = true |- _ => apply String.eqb_eq in Hs
         | Ho : option_eqb _ _ = true |- _ => apply option_eqb_eq in Ho
         end.
  destruct row; unfold updated_row; simpl in *. congruence.
Qed.

(** X16. When [cur.rowcount] counts the rows changed (FOUND_ROWS not set),
    an update that sends to a stored shipment the columns it already has is
    answered 500 with the text "404: Shipment not found", although the
    shipment is stored; the table is unchanged. *)
Theorem unchanged_update_is_answered_not_found :
  forall env id s db,
    (forall row, In row db -> shipment_id row = id -> same_columns s row = true) ->
    store_error env 0 = None ->
    store_error env 1 = None ->
    update_shipment env false id s db
    = (Raises (HTTPException 500 "404: Shipment not found"), db).
Proof.
  intros env id s db Hsame Hok0 Hok1.
  unfold update_shipment, update_rowcount. rewrite Hok0, Hok1.
  cbn [get_shipping_connection shipments_view shipments_durable
       shipping_commit shipping_rollback].
  assert (Hcount : filter (fun row => (has_shipment_id id row
                             && (false || negb (same_columns s row)))%bool) db = []).
  { apply filter_none. apply Forall_forall. intros row Hin.
    destruct (has_shipment_id id row) eqn:Hrow; [|reflexivity].
    unfold has_shipment_id in Hrow. apply Z.eqb_eq in Hrow.
    now rewrite (Hsame row Hin Hrow). }
  rewrite Hcount. cbn [List.length Nat.eqb].
  assert (Hmap : map (set_shipment id s) db = db).
  { clear Hcount. induction db as [|row rest IH]; simpl; [reflexivity|].
    rewrite IH by (intros row' Hin; apply Hsame; now right).
    unfold set_shipment. destruct (has_shipment_id id row) eqn:Hrow; [|reflexivity].
    unfold has_shipment_id in Hrow. apply Z.eqb_eq in Hrow.
    rewrite <- Hrow at 1.
    now rewrite (same_columns_updated_row s row (Hsame row (or_introl eq_refl) Hrow)). }
  now rewrite Hmap.
Qed.

(** Shipment 7 is sent its own columns. *)
Lemma unchanged_update_is_answered_not_found_witness :
  get_shipment_by_id 7 [shipment 7 "SHIPPED"] = Returns (shipment 7 "SHIPPED")
  /\ update_shipment all_granted false 7 (shipment 7 "SHIPPED") [shipment 7 "SHIPPED"]
     = (Raises (HTTPException 500 "404: Shipment not found"), [shipment 7 "SHIPPED"]).
Proof.
  split; [reflexivity|].
  apply unchanged_update_is_answered_not_found; try reflexivity.
  intros row [<- | []] _. reflexivity.
Defined.

(** X17. Deleting a stored shipment, when the store accepts the writes,
    removes every row of its id and nothing else: the id is then answered as
    not found, the shipments of the other ids are read as before; and
    deleting a shipment that was just added under a new id gives back the
    table as it was before the addition. *)
Theorem delete_shipment_removes_it :
  forall env id db,
    store_error env 0 = None ->
    store_error env 1 = None ->
    (forall old, In old db -> shipment_id old = id ->
       delete_shipment env id db
       = (Returns ("🗑️ Shipment " ++ str id ++ " deleted successfully"),
          filter (fun row => negb (has_shipment_id id row)) db)
       /\ get_shipment_by_id id (filter (fun row => negb (has_shipment_id id row)) db)
          = Raises (HTTPException 500 "404: Shipment not found")
       /\ forall id', id' <> id ->
            get_shipment_by_id id' (filter (fun row => negb (has_shipment_id id row)) db)
            = get_shipment_by_id id' db)
    /\ (forall s, shipment_id s = id ->
          (forall row, In row db -> shipment_id row <> id) ->
          snd (delete_shipment env id (snd (add_shipment env s db))) = db).
Proof.
  intros env id db Hok0 Hok1. split.
  - intros old Hin Hid. split; [|split].
    + unfold delete_shipment. rewrite Hok0, Hok1.
      cbn [get_shipping_connection shipments_view shipments_durable shipping_commit].
      assert (Hrow : In old (filter (has_shipment_id id) db)).
      { apply filter_In. split; [exact Hin|]. unfold has_shipment_id. now apply Z.eqb_eq. }
      destruct (filter (has_shipment_id id) db) as [|row rows]; [destruct Hrow | reflexivity].
    + unfold get_shipment_by_id. cbn [get_shipping_connection shipments_view].
      now rewrite find_deleted.
    + intros id' Hother. unfold get_shipment_by_id.
      cbn [get_shipping_connection shipments_view]. now rewrite find_other_after_delete.
  - intros s Hid Hfresh.
    rewrite (add_shipment_accepted env s db) by
      (try assumption; intros row Hin; rewrite Hid; now apply Hfresh).
    cbn [snd]. unfold delete_shipment. rewrite Hok0, Hok1.
    cbn [get_shipping_connection shipments_view shipments_durable
         shipping_commit shipping_rollback].
    destruct (filter_shipment_none id db Hfresh) as (Hf1 & Hf2).
    rewrite !filter_app, Hf1, Hf2. cbn [filter app].
    unfold has_shipment_id. apply Z.eqb_eq in Hid. rewrite Hid. cbn.
    now rewrite app_nil_r.
Qed.

(** Shipment 8 is added to a table that holds shipment 7, then deleted. *)
Lemma delete_shipment_removes_it_witness :
  delete_shipment all_granted 8 [shipment 7 "SHIPPED"; shipment 8 "CREATED"]
  = (Returns "🗑️ Shipment 8 deleted successfully", [shipment 7 "SHIPPED"])
  /\ snd (delete_shipment all_granted 8
            (snd (add_shipment all_granted (shipment 8 "CREATED") [shipment 7 "SHIPPED"])))
     = [shipment 7 "SHIPPED"].
Proof.
  split.
  - exact (proj1 (proj1 (delete_shipment_removes_it all_granted 8
                           [shipment 7 "SHIPPED"; shipment 8 "CREATED"] eq_refl eq_refl)
                    (shipment 8 "CREATED") (or_intror (or_introl eq_refl)) eq_refl)).
  - apply (proj2 (delete_shipment_removes_it all_granted 8 [shipment 7 "SHIPPED"]
                    eq_refl eq_refl) (shipment 8 "CREATED") eq_refl).
    intros row [<- | []]. discriminate.
Defined.

(** ** The calls of a run of place_order *)

Lemma send_notification_calls (env : Env) (customer id : Z) (log : list Call) :
  send_notification env customer id log
  = (log ++ [notification_call
               (notification_data "ORDER_CONFIRMED" customer id
                  ("Your order #" ++ str id
                     ++ " has been confirmed and payment processed successfully."))])%list.
Proof.
  unfold send_notification, post.
  destruct (respond env (List.length log) _); reflexivity.
Qed.



(** ** Answers that are ignored *)

Lemma reserve_items_same_replies (env env' : Env) (key : string) (id : Z)
    (items : list OrderItem) :
  forall reservations order_items total_amount log,
    (forall i call, (List.length log <= i < List.length log + List.length items)%nat ->
       is_reserve call = true -> respond env' i call = respond env i call) ->
    reserve_items env' key id items reservations order_items total_amount log
    = reserve_items env key id items reservations order_items total_amount log.
Proof.
  induction items as [|it rest IH]; intros reservations order_items total_amount log Hsame;
    [reflexivity|].
  cbn [reserve_items]. unfold post.
  rewrite (Hsame (List.length log) (reserve_call_of key id it))
    by (cbn [List.length]; try lia; reflexivity).
  destruct (respond env (List.length log) (reserve_call_of key id it))
    as [status_code text [e|]|e].
  - destruct (status_code =? 200); now rewrite !release_all_log.
  - destruct (status_code =? 200).
    + destruct (float_of_int (quantity it)); [|reflexivity].
      apply IH. intros i call Hi Hcall. apply Hsame; [|exact Hcall].
      rewrite length_app in Hi. cbn [List.length] in *. lia.
    + now rewrite !release_all_log.
  - now rewrite !release_all_log.
Qed.

Lemma insert_order_items_same_store (env env' : Env) (id : Z) (order_items : list OrderLine) :
  store_error env' = store_error env ->
  forall n conn,
    insert_order_items env' id n order_items conn
    = insert_order_items env id n order_items conn.
Proof.
  intros Hstore. induction order_items as [|line rest IH]; intros n conn; simpl;
    [reflexivity|].
  rewrite Hstore. destruct (store_error env n); [reflexivity | apply IH].
Qed.

(** X18. The answers to the Release, notification and shipment calls never
    alter a run of PlaceOrder: two runs of the same request on the same
    tables, with the same clock, uuid and store behaviour, and the same
    answers to the Reserve calls of the items, end with the same response or
    error, the same calls and the same tables, whatever the other answers
    are. *)
Theorem only_reserve_answers_matter :
  forall env env' header order_request db,
    uuid4 env' = uuid4 env ->
    time_ms env' = time_ms env ->
    time_s env' = time_s env ->
    now env' = now env ->
    store_error env' = store_error env ->
    (forall i call, (i < List.length (items order_request))%nat ->
       is_reserve call = true -> respond env' i call = respond env i call) ->
    place_order env' header order_request db = place_order env header order_request db.
Proof.
  intros env env' header order_request db Huuid Hms Hs Hnow Hstore Hreplies.
  assert (Hkey : request_key env' header order_request
                 = request_key env header order_request)
    by (unfold request_key; now rewrite Huuid).
  assert (Hid : new_order_id env' = new_order_id env)
    by (unfold new_order_id; now rewrite Hms).
  unfold place_order, place_order_with. rewrite Hkey, Hid.
  destruct (select_order_by_key (get_connection db) _); [reflexivity|].
  rewrite (reserve_items_same_replies env env')
    by (intros i call Hi; apply Hreplies; cbn [List.length] in Hi; lia).
  destruct (reserve_items env _ _ (items order_request) [] [] 0%float [])
    as [[reservations order_items total_amount | [status_code detail | e] reservations] log].
  - unfold mock_payment. rewrite Hs, Hnow.
    assert (Hcreate : forall row,
               create_order env' (get_connection db) row order_items
               = create_order env (get_connection db) row order_items).
    { intros row. unfold create_order.
      rewrite Hstore, (insert_order_items_same_store env env' _ _ Hstore). reflexivity. }
    rewrite Hcreate.
    destruct (create_order env (get_connection db) _ order_items) as [conn | [e conn]].
    + now rewrite !create_shipment_log, !send_notification_calls.
    + unfold order_processing_failed. now rewrite !release_all_log.
  - reflexivity.
  - unfold order_processing_failed. now rewrite !release_all_log.
Qed.

(** The notification call raises in one run and is answered in the other. *)
Lemma only_reserve_answers_matter_witness :
  place_order (answering 2 (RequestException "Connection refused")) None
              (request "key-6" two_items) empty_db
  = place_order all_granted None (request "key-6" two_items) empty_db.
Proof.
  apply only_reserve_answers_matter; try reflexivity.
  intros [|[|i]] call Hi _; try reflexivity. simpl in Hi. lia.
Defined.
